(** * slurmformspawner: the SlurmAPI resource-information cache

    A shallow embedding of [slurmformspawner/slurm.py].  The class
    [SlurmAPI] wraps three external commands ([scontrol --json show node],
    [sacctmgr show user ...], [scontrol show res --json]), memoises their
    parsed results in three [cachetools.TTLCache] objects and projects the
    cached data into sorted views.

    Conventions of the embedding.
    - A Python [str] is a [string]; each character stands for a code point
      below 256, and [str] comparison is the lexicographic comparison of code
      points ([String.leb]).
    - A Python [int] is a [Z].  Clock readings are integers in one fixed unit;
      a TTL is expressed in the same unit.
    - A Python [set] is a [gset]; [sorted] is [merge_sort] for the order of the
      element type.
    - The JSON documents printed by [scontrol] are represented after
      [json.loads], as records whose fields are optional where the code has to
      look a key up: [None] is an absent key.  A field that is present has the
      type the Slurm schema gives it.
    - A method is a function from the state of the world (clocks, the log of
      commands run so far, the three caches) to a result and a new world; a
      result is a value or a raised exception.  The clocks do not move during
      a call; [at_time] moves them between two calls. *)

From stdpp Require Import gmap strings list sorting fin_sets.
From Stdlib Require Import ZArith String Ascii Lia.

Open Scope string_scope.
Open Scope list_scope.
Open Scope Z_scope.

(** ** Exceptions and results *)

Inductive exn : Type :=
  | KeyError (key : string)
  | CalledProcessError (returncode : Z)
  | FileNotFoundError
  | ValueError
  | OverflowError.

Inductive result (A : Type) : Type :=
  | Ok (a : A)
  | Raise (e : exn).

Arguments Ok {A} a.
Arguments Raise {A} e.

Definition result_bind {A B} (r : result A) (f : A -> result B) : result B :=
  match r with
  | Ok a => f a
  | Raise e => Raise e
  end.

(** [d[key]] on a field that may be absent. *)
Definition getitem {A} (key : string) (field : option A) : result A :=
  match field with
  | Some a => Ok a
  | None => Raise (KeyError key)
  end.

(** [d.get(key, default)]. *)
Definition get_default {A} (field : option A) (default : A) : A :=
  match field with
  | Some a => a
  | None => default
  end.

(** ** Strings: order, [split] and [splitlines] *)

Definition str_le (a b : string) : Prop := String.leb a b = true.

Global Instance str_le_dec : RelDecision str_le.
Proof. intros a b. unfold str_le. apply _. Defined.

(** [s.split(sep)] for a one-character separator: never empty, the empty
    string gives [['']]. *)
Fixpoint split (sep : ascii) (s : string) : list string :=
  match s with
  | EmptyString => [EmptyString]
  | String c s' =>
      if Ascii.eqb c sep then EmptyString :: split sep s'
      else match split sep s' with
           | [] => [String c EmptyString]
           | piece :: pieces => String c piece :: pieces
           end
  end.

(** The line boundaries of [str.splitlines] among the code points below 256:
    LF, VT, FF, CR, FS, GS, RS and NEL. *)
Definition is_linebreak (c : ascii) : bool :=
  let n := N_of_ascii c in
  ((10 <=? n) && (n <=? 13) || (28 <=? n) && (n <=? 30) || (n =? 133))%N.

Definition CR : ascii := ascii_of_N 13.
Definition LF : ascii := ascii_of_N 10.

(** [s.splitlines()]: a boundary ends the current line, CR LF counts as one
    boundary, and no line is produced after the last boundary. *)
Fixpoint splitlines (s : string) : list string :=
  match s with
  | EmptyString => []
  | String c s' =>
      if is_linebreak c then
        EmptyString ::
          (if Ascii.eqb c CR then
             match s' with
             | String c' s'' => if Ascii.eqb c' LF then splitlines s'' else splitlines s'
             | EmptyString => splitlines s'
             end
           else splitlines s')
      else match splitlines s' with
           | [] => [String c EmptyString]
           | line :: lines => String c line :: lines
           end
  end.

(** ** Time stamps and sorting *)

(** A naive [datetime], as a number on the local time line. *)
Definition datetime : Type := Z.

(** [sorted(xs)] on integers and on strings. *)
Definition sorted_int (xs : list Z) : list Z := merge_sort Z.le xs.
Definition sorted_str (xs : list string) : list string := merge_sort str_le xs.

(** ** The node listing *)

(** One element of [json.loads(controls)['nodes']]. *)
Record node : Type := {
  cpus : option Z;
  real_memory : option Z;
  specialized_memory : option Z;
  (** absent, [null], or a string *)
  gres : option (option string);
  partitions : option (list string);
  active_features : option (list string);
}.

(** The document printed by [scontrol --json show node]. *)
Record node_doc : Type := { nodes : option (list node) }.

(** The dictionary built by [get_node_info]. *)
Record NodeInfo : Type := {
  cpu : list Z;
  mem : list Z;
  gres_list : list string;
  partitions_list : list string;
  features : gset (gset string);
}.

Definition empty_output : NodeInfo :=
  {| cpu := []; mem := []; gres_list := []; partitions_list := []; features := ∅ |}.

(** Truth value of a [str] or [None] and of a list. *)
Definition truthy_gres (g : option string) : bool :=
  match g with
  | Some (String _ _) => true
  | _ => false
  end.

Definition truthy_list {A} (l : list A) : bool :=
  match l with
  | [] => false
  | _ :: _ => true
  end.

(** The body of the loop [for node in nodes]. *)
Definition add_node (output : NodeInfo) (n : node) : result NodeInfo :=
  result_bind (getitem "cpus" (cpus n)) (fun c =>
  let cpu' := cpu output ++ [c] in
  result_bind (getitem "real_memory" (real_memory n)) (fun m =>
  let mem' := mem output ++ [m - get_default (specialized_memory n) 0] in
  result_bind (getitem "gres" (gres n)) (fun g =>
  let gres' :=
    match g with
    | Some s => if truthy_gres g then gres_list output ++ [s] else gres_list output
    | None => gres_list output
    end in
  let partitions' := partitions_list output ++ get_default (partitions n) [] in
  result_bind
    (if truthy_list (get_default (active_features n) [])
     then result_bind (getitem "active_features" (active_features n)) (fun fs =>
            Ok (features output ∪ {[ list_to_set fs ]}))
     else Ok (features output)) (fun features' =>
  Ok {| cpu := cpu'; mem := mem'; gres_list := gres';
        partitions_list := partitions'; features := features' |})))).

Fixpoint add_nodes (output : NodeInfo) (ns : list node) : result NodeInfo :=
  match ns with
  | [] => Ok output
  | n :: ns' => result_bind (add_node output n) (fun output' => add_nodes output' ns')
  end.

(** The [else] branch of [get_node_info]: from the parsed document to the
    dictionary. *)
Definition parse_node_info (doc : node_doc) : result NodeInfo :=
  add_nodes empty_output (get_default (nodes doc) []).

(** ** The reservation listing *)

(** [res['start_time']] and [res['end_time']]: an object with a [number]. *)
Record time_obj : Type := { number : option Z }.

(** One element of [json.loads(reservations)['reservations']]. *)
Record raw_reservation : Type := {
  name : option string;
  flags : option (list string);
  users : option string;
  accounts : option string;
  start_time : option time_obj;
  end_time : option time_obj;
}.

(** The document printed by [scontrol show res --json]. *)
Record res_doc : Type := { reservations : option (list raw_reservation) }.

(** The dictionary [current_res]. *)
Record Reservation : Type := {
  ReservationName : string;
  Users : gset string;
  Accounts : gset string;
  StartTime : datetime;
  EndTime : datetime;
}.

Definition comma : ascii := ascii_of_N 44.

(** [set(res['flags'])] and the test ['MAINT' in flags]. *)
Definition is_maint (fl : list string) : bool :=
  bool_decide ("MAINT" ∈ (list_to_set fl : gset string)).

(** One iteration of the loop of [get_reservations]: [None] is [continue].
    [fromtimestamp] is [datetime.fromtimestamp]: the local time of an epoch
    number, or the exception ([ValueError], [OverflowError]) that it raises on
    a number out of its range. *)
Definition convert_reservation (fromtimestamp : Z -> result datetime)
    (res : raw_reservation) : result (option Reservation) :=
  result_bind (getitem "flags" (flags res)) (fun fl =>
  if is_maint fl then Ok None else
  result_bind (getitem "name" (name res)) (fun nm =>
  result_bind (getitem "users" (users res)) (fun us =>
  result_bind (getitem "accounts" (accounts res)) (fun acs =>
  result_bind (getitem "start_time" (start_time res)) (fun st =>
  result_bind (getitem "number" (number st)) (fun sn =>
  result_bind (fromtimestamp sn) (fun start =>
  result_bind (getitem "end_time" (end_time res)) (fun et =>
  result_bind (getitem "number" (number et)) (fun en =>
  result_bind (fromtimestamp en) (fun finish =>
  Ok (Some {| ReservationName := nm;
              Users := list_to_set (split comma us);
              Accounts := list_to_set (split comma acs);
              StartTime := start;
              EndTime := finish |}))))))))))).

Fixpoint filter_reservations (fromtimestamp : Z -> result datetime)
    (filtered_reservations : list Reservation) (rs : list raw_reservation)
    : result (list Reservation) :=
  match rs with
  | [] => Ok filtered_reservations
  | res :: rs' =>
      result_bind (convert_reservation fromtimestamp res) (fun current_res =>
      match current_res with
      | None => filter_reservations fromtimestamp filtered_reservations rs'
      | Some r => filter_reservations fromtimestamp (filtered_reservations ++ [r]) rs'
      end)
  end.

(** The condition of the list comprehension of [get_active_reservations]. *)
Definition is_active (username : string) (accts : gset string) (now : datetime)
    (res : Reservation) : bool :=
  (StartTime res <=? now) && (now <=? EndTime res) &&
  (bool_decide (username ∈ Users res) || bool_decide (accts ∩ Accounts res ≠ ∅)).

(** ** The time-bounded caches *)

(** Modelled from the spec: the cache class [cachetools.TTLCache] is not part
    of the source.  A cache maps a key to a value and its insertion time; the
    entries are kept least recently used first; [maxsize] is the configured
    capacity and [ttl] the time to live. *)
Record TTLCache (K V : Type) : Type := {
  maxsize : Z;
  ttl : Z;
  entries : list (K * V * Z);
}.

Arguments maxsize {K V} _.
Arguments ttl {K V} _.
Arguments entries {K V} _.

Section Cache.
Context {K V : Type} `{EqDecision K}.

(** Modelled from the spec: a fresh cache (the constructor of
    [cachetools.TTLCache] is not part of the source). *)
Definition new_cache (size t : Z) : TTLCache K V :=
  {| maxsize := size; ttl := t; entries := [] |}.

(** Modelled from the spec: validity of an entry, missing from the source
    with [cachetools.TTLCache]: an entry is valid while
    [now - insertion time < TTL]. *)
Definition valid (c : TTLCache K V) (now : Z) (e : K * V * Z) : bool :=
  now - e.2 <? ttl c.

Definition has_key (k : K) (e : K * V * Z) : bool := bool_decide (e.1.1 = k).

(** Modelled from the spec: lookup of the live entry of a key (the lookup of
    [cachetools.TTLCache] is not part of the source). *)
Definition cache_get (now : Z) (k : K) (c : TTLCache K V) : option V :=
  match List.find (has_key k) (entries c) with
  | Some e => if valid c now e then Some e.1.2 else None
  | None => None
  end.

(** Modelled from the spec: a hit makes the key the most recently used one
    (the bookkeeping of [cachetools.TTLCache] is not part of the source). *)
Definition cache_touch (k : K) (c : TTLCache K V) : TTLCache K V :=
  {| maxsize := maxsize c; ttl := ttl c;
     entries := List.filter (fun e => negb (has_key k e)) (entries c)
                ++ List.filter (has_key k) (entries c) |}.

(** Modelled from the spec: storing a computed value (the store of
    [cachetools.TTLCache] is not part of the source).  [maxsize] is the
    maximum entry count: a cache whose capacity is below one entry stores
    nothing.  Otherwise expired entries and the old entry of the key
    disappear, the oldest entries are evicted until there is room for one
    more, and the value is stored with the current time. *)
Definition cache_put (now : Z) (k : K) (v : V) (c : TTLCache K V) : TTLCache K V :=
  if maxsize c <? 1 then c
  else
    let kept := List.filter (fun e => valid c now e && negb (has_key k e)) (entries c) in
    let room := drop (Z.to_nat (Z.of_nat (List.length kept) + 1 - maxsize c)) kept in
    {| maxsize := maxsize c; ttl := ttl c; entries := room ++ [(k, v, now)] |}.
End Cache.

(** ** The world: clocks, external commands, the [SlurmAPI] object *)

Inductive command : Type :=
  | ScontrolShowNode
  | SacctmgrShowUser (username : string)
  | ScontrolShowRes.

(** What running a command does: it prints [stdout] and exits with status 0,
    it exits with a non-zero status, or it cannot be started at all. *)
Inductive outcome (A : Type) : Type :=
  | Returned (stdout : A)
  | NonZeroExit (returncode : Z)
  | NotLaunched.

Arguments Returned {A} stdout.
Arguments NonZeroExit {A} returncode.
Arguments NotLaunched {A}.

(** The environment of the process: what each command does when it is the
    [n]-th command run, and what [datetime.fromtimestamp] gives in the local
    time zone. *)
Record Env : Type := {
  scontrol_show_node : nat -> outcome node_doc;
  sacctmgr_show_user : string -> nat -> outcome string;
  scontrol_show_res : nat -> outcome res_doc;
  fromtimestamp : Z -> result datetime;
}.

(** The traits of [SlurmAPI]. *)
Record Config : Type := {
  info_cache_ttl : Z;
  acct_cache_ttl : Z;
  acct_cache_size : Z;
  res_cache_ttl : Z;
}.

Definition default_config : Config :=
  {| info_cache_ttl := 300; acct_cache_ttl := 300;
     acct_cache_size := 100; res_cache_ttl := 300 |}.

(** The [SlurmAPI] object.  The three [TTLCache] objects are built once, by
    [__init__], from the traits: the capacity and the TTL of a cache never
    change, only its entries do.  The object is therefore kept as its traits
    and the entries of its three caches. *)
Record SlurmAPI : Type := {
  config : Config;
  info_entries : list (unit * NodeInfo * Z);
  acct_entries : list (string * list string * Z);
  res_entries : list (unit * list Reservation * Z);
}.

(** [self.info_cache = TTLCache(maxsize=1, ttl=self.info_cache_ttl)]. *)
Definition info_cache (s : SlurmAPI) : TTLCache unit NodeInfo :=
  {| maxsize := 1; ttl := info_cache_ttl (config s); entries := info_entries s |}.

(** [self.acct_cache = TTLCache(maxsize=self.acct_cache_size,
    ttl=self.acct_cache_ttl)]. *)
Definition acct_cache (s : SlurmAPI) : TTLCache string (list string) :=
  {| maxsize := acct_cache_size (config s); ttl := acct_cache_ttl (config s);
     entries := acct_entries s |}.

(** [self.res_cache = TTLCache(maxsize=1, ttl=self.res_cache_ttl)]. *)
Definition res_cache (s : SlurmAPI) : TTLCache unit (list Reservation) :=
  {| maxsize := 1; ttl := res_cache_ttl (config s); entries := res_entries s |}.

(** [SlurmAPI.__init__]: the three caches start empty. *)
Definition init (config : Config) : SlurmAPI :=
  {| config := config; info_entries := []; acct_entries := []; res_entries := [] |}.

Record World : Type := {
  (** the timer of the caches *)
  monotonic : Z;
  (** [datetime.now()] *)
  wall_clock : datetime;
  (** the commands run so far, oldest first *)
  calls : list command;
  self : SlurmAPI;
}.

Definition M (A : Type) : Type := World -> result A * World.

Definition ret {A} (a : A) : M A := fun w => (Ok a, w).

Definition bind {A B} (m : M A) (f : A -> M B) : M B :=
  fun w =>
    match m w with
    | (Ok a, w') => f a w'
    | (Raise e, w') => (Raise e, w')
    end.

Declare Scope py_scope.
Delimit Scope py_scope with py.
Notation "x <- m ;; k" := (bind m (fun x => k))
  (at level 100, m at next level, right associativity) : py_scope.
Open Scope py_scope.

Definition datetime_now : M datetime := fun w => (Ok (wall_clock w), w).

(** [subprocess.check_output]: the command is run (and logged); a non-zero
    exit status raises [CalledProcessError], a command that cannot be started
    raises [FileNotFoundError]. *)
Definition check_output {A} (cmd : command) (run : nat -> outcome A) : M A :=
  fun w =>
    let w' := {| monotonic := monotonic w; wall_clock := wall_clock w;
                 calls := calls w ++ [cmd]; self := self w |} in
    match run (List.length (calls w)) with
    | Returned out => (Ok out, w')
    | NonZeroExit rc => (Raise (CalledProcessError rc), w')
    | NotLaunched => (Raise FileNotFoundError, w')
    end.

Definition with_self (s : SlurmAPI) (w : World) : World :=
  {| monotonic := monotonic w; wall_clock := wall_clock w;
     calls := calls w; self := s |}.

(** Modelled from the spec: the memoising decorator [cachetools.cachedmethod]
    is not part of the source.  If a live entry exists for the key it is
    returned without running the method; otherwise the method runs and, when
    it returns, its result is stored with the current time. *)
Definition cachedmethod {K V} `{EqDecision K}
    (cache : SlurmAPI -> TTLCache K V)
    (set_cache : TTLCache K V -> SlurmAPI -> SlurmAPI)
    (k : K) (method : M V) : M V :=
  fun w =>
    match cache_get (monotonic w) k (cache (self w)) with
    | Some v => (Ok v, with_self (set_cache (cache_touch k (cache (self w))) (self w)) w)
    | None =>
        match method w with
        | (Ok v, w') =>
            (Ok v, with_self (set_cache (cache_put (monotonic w') k v (cache (self w')))
                                        (self w')) w')
        | (Raise e, w') => (Raise e, w')
        end
    end.

(** The object after the entries of one of its caches have changed. *)
Definition set_info_cache (c : TTLCache unit NodeInfo) (s : SlurmAPI) : SlurmAPI :=
  {| config := config s; info_entries := entries c;
     acct_entries := acct_entries s; res_entries := res_entries s |}.
Definition set_acct_cache (c : TTLCache string (list string)) (s : SlurmAPI) : SlurmAPI :=
  {| config := config s; info_entries := info_entries s;
     acct_entries := entries c; res_entries := res_entries s |}.
Definition set_res_cache (c : TTLCache unit (list Reservation)) (s : SlurmAPI) : SlurmAPI :=
  {| config := config s; info_entries := info_entries s;
     acct_entries := acct_entries s; res_entries := entries c |}.

(** ** The methods of [SlurmAPI] *)

Section Methods.
Variable env : Env.

(** The body of [get_node_info], below the decorator. *)
Definition get_node_info_body : M NodeInfo :=
  fun w =>
    match check_output ScontrolShowNode (scontrol_show_node env) w with
    | (Raise (CalledProcessError _), w') => (Ok empty_output, w')
    | (Raise e, w') => (Raise e, w')
    | (Ok controls, w') => (parse_node_info controls, w')
    end.

Definition get_node_info : M NodeInfo :=
  cachedmethod info_cache set_info_cache tt get_node_info_body.

(** [a and b] on two lists: [a] when it is empty, else [b]; the second
    operand is evaluated only when the first is true. *)
Definition is_online : M (list Z) :=
  info <- get_node_info ;;
  if truthy_list (cpu info) then
    info' <- get_node_info ;; ret (mem info')
  else ret (cpu info).

Definition get_cpus : M (list Z) :=
  info <- get_node_info ;;
  ret (sorted_int (elements (list_to_set (cpu info) : gset Z))).

Definition get_mems : M (list Z) :=
  info <- get_node_info ;;
  ret (sorted_int (elements (list_to_set (mem info) : gset Z))).

Definition get_gres : M (list string) :=
  info <- get_node_info ;;
  let gres := (list_to_set (gres_list info) : gset string) ∖ list_to_set ["gpu:0"] in
  ret (["gpu:0"] ++ sorted_str (elements gres)).

Definition get_partitions : M (list string) :=
  info <- get_node_info ;;
  ret (sorted_str (elements (list_to_set (partitions_list info) : gset string))).

Definition get_features : M (list string) :=
  info <- get_node_info ;;
  let feature_sets := features info in
  let features : gset string := set_bind (fun feature_set => feature_set) feature_sets in
  ret (sorted_str (elements features)).

(** The body of [get_accounts], below the decorator. *)
Definition get_accounts_body (username : string) : M (list string) :=
  fun w =>
    match check_output (SacctmgrShowUser username) (sacctmgr_show_user env username) w with
    | (Raise (CalledProcessError _), w') => (Ok [], w')
    | (Raise e, w') => (Raise e, w')
    | (Ok string, w') => (Ok (splitlines string), w')
    end.

Definition get_accounts (username : string) : M (list string) :=
  cachedmethod acct_cache set_acct_cache username (get_accounts_body username).

(** The body of [get_reservations], below the decorator. *)
Definition get_reservations_body : M (list Reservation) :=
  fun w =>
    match check_output ScontrolShowRes (scontrol_show_res env) w with
    | (Raise (CalledProcessError _), w') =>
        (filter_reservations (fromtimestamp env) [] [], w')
    | (Raise e, w') => (Raise e, w')
    | (Ok doc, w') =>
        (filter_reservations (fromtimestamp env) [] (get_default (reservations doc) []), w')
    end.

Definition get_reservations : M (list Reservation) :=
  cachedmethod res_cache set_res_cache tt get_reservations_body.

Definition get_active_reservations (username : string) (accounts : list string)
    : M (list Reservation) :=
  reservations <- get_reservations ;;
  if negb (truthy_list reservations) then ret []
  else
    let accounts : gset string := list_to_set accounts in
    now <- datetime_now ;;
    ret (List.filter (is_active username accounts now) reservations).
End Methods.

(** ** The public query surface *)

(** The Python objects the public methods return ([PyBool] is [bool]). *)
Inductive pyobj : Type :=
  | PyBool (b : bool)
  | PyInts (l : list Z)
  | PyStrs (l : list string)
  | PyReservations (l : list Reservation).

(** [bool(x)]. *)
Definition truthy (x : pyobj) : bool :=
  match x with
  | PyBool b => b
  | PyInts l => truthy_list l
  | PyStrs l => truthy_list l
  | PyReservations l => truthy_list l
  end.

Inductive view : Type :=
  | IsOnline
  | GetCpus
  | GetMems
  | GetGres
  | GetPartitions
  | GetFeatures
  | GetAccounts (username : string)
  | GetActiveReservations (username : string) (accounts : list string).

Definition returning {A} (wrap : A -> pyobj) (m : M A) : M pyobj :=
  a <- m ;; ret (wrap a).

(** A call of a public method on the [SlurmAPI] object. *)
Definition call (env : Env) (v : view) : M pyobj :=
  match v with
  | IsOnline => returning PyInts (is_online env)
  | GetCpus => returning PyInts (get_cpus env)
  | GetMems => returning PyInts (get_mems env)
  | GetGres => returning PyStrs (get_gres env)
  | GetPartitions => returning PyStrs (get_partitions env)
  | GetFeatures => returning PyStrs (get_features env)
  | GetAccounts username => returning PyStrs (get_accounts env username)
  | GetActiveReservations username accounts =>
      returning PyReservations (get_active_reservations env username accounts)
  end.

(** The world at a later reading of the two clocks. *)
Definition at_time (t : Z) (wall : datetime) (w : World) : World :=
  {| monotonic := t; wall_clock := wall; calls := calls w; self := self w |}.

(** The cache entry behind a view is live at the current time. *)
Definition live_entry (v : view) (w : World) : bool :=
  match v with
  | GetAccounts username =>
      bool_decide (is_Some (cache_get (monotonic w) username (acct_cache (self w))))
  | GetActiveReservations _ _ =>
      bool_decide (is_Some (cache_get (monotonic w) tt (res_cache (self w))))
  | _ => bool_decide (is_Some (cache_get (monotonic w) tt (info_cache (self w))))
  end.

(** The time to live of the cache behind a view. *)
Definition ttl_of (v : view) (w : World) : Z :=
  match v with
  | GetAccounts _ => ttl (acct_cache (self w))
  | GetActiveReservations _ _ => ttl (res_cache (self w))
  | _ => ttl (info_cache (self w))
  end.

(** The capacity of the cache behind a view. *)
Definition maxsize_of (v : view) (w : World) : Z :=
  match v with
  | GetAccounts _ => maxsize (acct_cache (self w))
  | GetActiveReservations _ _ => maxsize (res_cache (self w))
  | _ => maxsize (info_cache (self w))
  end.

(** A world in which nothing has run yet. *)
Definition fresh_world (config : Config) (t : Z) (wall : datetime) : World :=
  {| monotonic := t; wall_clock := wall; calls := []; self := init config |}.

(** ** Predicates used in the statements *)

(** The world after one more command. *)
Definition logged (cmd : command) (w : World) : World :=
  {| monotonic := monotonic w; wall_clock := wall_clock w;
     calls := calls w ++ [cmd]; self := self w |}.

(** What a memoised method does to the world when it returns [v]: either the
    value came from a live entry and no command ran, or there was no live
    entry, one command ran and the value was stored at the current time. *)
Record memo_step {K V} `{EqDecision K} (cache : SlurmAPI -> TTLCache K V)
    (k : K) (cmd : command) (w : World) (v : V) (w' : World) : Prop := {
  step_monotonic : monotonic w' = monotonic w;
  step_wall_clock : wall_clock w' = wall_clock w;
  step_ttl : ttl (cache (self w')) = ttl (cache (self w));
  step_cases :
    (calls w' = calls w /\
     cache_get (monotonic w) k (cache (self w)) = Some v /\
     forall t, cache_get t k (cache (self w')) = cache_get t k (cache (self w)))
    \/
    (calls w' = calls w ++ [cmd] /\
     cache_get (monotonic w) k (cache (self w)) = None /\
     forall t, cache_get t k (cache (self w'))
               = if t - monotonic w <? ttl (cache (self w)) then Some v else None);
}.

(** What a node contributes to [output['gres']] and to [output['features']]. *)
Definition gres_contribution (n : node) : option string :=
  match gres n with
  | Some (Some (String c s)) => Some (String c s)
  | _ => None
  end.

Definition feature_contribution (n : node) : option (gset string) :=
  match active_features n with
  | Some (f :: fs) => Some (list_to_set (f :: fs))
  | _ => None
  end.

(** The keys [get_node_info] subscripts without a default. *)
Definition has_required_keys (n : node) : Prop :=
  is_Some (cpus n) /\ is_Some (real_memory n) /\ is_Some (gres n).

(** The memory entry of a node. *)
Definition mem_entry (n : node) (m : Z) : Prop :=
  exists real, real_memory n = Some real /\ m = real - get_default (specialized_memory n) 0.

(** A line of text: no line boundary inside. *)
Definition no_linebreak (s : string) : Prop :=
  Forall (fun c => is_linebreak c = false) (list_ascii_of_string s).

(** Lines written one after the other, each ended by a line feed. *)
Fixpoint unlines (lines : list string) : string :=
  match lines with
  | [] => EmptyString
  | line :: lines' => (line ++ String LF (unlines lines'))%string
  end.

(** The raw reservations that are not flagged [MAINT]. *)
Definition not_maint (res : raw_reservation) : bool :=
  negb (is_maint (get_default (flags res) [])).

(** ** Sample environments *)

Definition constant_env (node_out : outcome node_doc) (acct_out : outcome string)
    (res_out : outcome res_doc) : Env :=
  {| scontrol_show_node := fun _ => node_out;
     sacctmgr_show_user := fun _ _ => acct_out;
     scontrol_show_res := fun _ => res_out;
     fromtimestamp := fun n => Ok n |}.

(** [{cpu: 4, mem: 16000, specialized: 2000}] and [{cpu: 4, mem: 32000}],
    with a [null] generic-resource field. *)
Definition node_a : node :=
  {| cpus := Some 4; real_memory := Some 16000; specialized_memory := Some 2000;
     gres := Some None; partitions := None; active_features := None |}.
Definition node_b : node :=
  {| cpus := Some 4; real_memory := Some 32000; specialized_memory := None;
     gres := Some None; partitions := None; active_features := None |}.

(** A node with an accelerator, partitions and features. *)
Definition node_c : node :=
  {| cpus := Some 8; real_memory := Some 64000; specialized_memory := None;
     gres := Some (Some "gpu:a100:4"); partitions := Some ["gpu"; "all"];
     active_features := Some ["zen3"; "avx2"] |}.

(** A node whose object has no [gres] key. *)
Definition node_without_gres : node :=
  {| cpus := Some 4; real_memory := Some 16000; specialized_memory := None;
     gres := None; partitions := Some ["all"]; active_features := Some [] |}.

Definition time_at (n : Z) : time_obj := {| number := Some n |}.

Definition res_team : raw_reservation :=
  {| name := Some "workshop"; flags := Some ["SPEC_NODES"]; users := Some "alice";
     accounts := Some "teamA"; start_time := Some (time_at 100);
     end_time := Some (time_at 200) |}.
Definition res_maint : raw_reservation :=
  {| name := Some "upgrade"; flags := Some ["MAINT"; "SPEC_NODES"]; users := Some "alice";
     accounts := Some "teamA"; start_time := Some (time_at 100);
     end_time := Some (time_at 200) |}.

(** Two account lines followed by a blank line. *)
Definition accounts_output : string :=
  unlines ["def-alice"; "rrg-alice"; ""].

Definition env_example : Env :=
  constant_env (Returned {| nodes := Some [node_a; node_b] |})
               (Returned accounts_output)
               (Returned {| reservations := Some [res_maint; res_team] |}).

Definition env_gpu : Env :=
  constant_env (Returned {| nodes := Some [node_a; node_c; node_b] |})
               (Returned accounts_output)
               (Returned {| reservations := Some [res_maint; res_team] |}).

(** [scontrol] and [sacctmgr] are not installed. *)
Definition env_unavailable : Env := constant_env NotLaunched NotLaunched NotLaunched.

(** Every command exits with status 1. *)
Definition env_failing : Env :=
  constant_env (NonZeroExit 1) (NonZeroExit 1) (NonZeroExit 1).

Definition env_without_gres : Env :=
  constant_env (Returned {| nodes := Some [node_without_gres] |})
               (NonZeroExit 1) (NonZeroExit 1).

Definition world0 : World := fresh_world default_config 0 150.

(** The defaults, but an accounts cache without room for an entry. *)
Definition config_without_room : Config :=
  {| info_cache_ttl := 300; acct_cache_ttl := 300;
     acct_cache_size := 0; res_cache_ttl := 300 |}.

Definition world_without_room : World := fresh_world config_without_room 0 150.

(** A TTL of 0 for the node information. *)
Definition config_ttl0 : Config :=
  {| info_cache_ttl := 0; acct_cache_ttl := 300;
     acct_cache_size := 100; res_cache_ttl := 300 |}.

Definition world_ttl0 : World := fresh_world config_ttl0 0 150.

(** The node query prints one node the first time and an empty listing
    afterwards. *)
Definition env_draining : Env :=
  {| scontrol_show_node := fun n =>
       match n with
       | O => Returned {| nodes := Some [node_a] |}
       | _ => Returned {| nodes := Some [] |}
       end;
     sacctmgr_show_user := fun _ _ => NonZeroExit 1;
     scontrol_show_res := fun _ => NonZeroExit 1;
     fromtimestamp := fun n => Ok n |}.


(** What [get_node_info] builds from the nodes of [env_example] and of
    [env_gpu]. *)
Definition info_example : NodeInfo :=
  {| cpu := [4; 4]; mem := [14000; 32000]; gres_list := [];
     partitions_list := []; features := ∅ |}.

Definition info_gpu : NodeInfo :=
  {| cpu := [4; 8; 4]; mem := [14000; 64000; 32000]; gres_list := ["gpu:a100:4"];
     partitions_list := ["gpu"; "all"];
     features := {[ list_to_set ["zen3"; "avx2"] ]} |}.

(** [res_team] after conversion. *)
Definition workshop : Reservation :=
  {| ReservationName := "workshop"; Users := {[ "alice" ]}; Accounts := {[ "teamA" ]};
     StartTime := 100; EndTime := 200 |}.

(** ** Further predicates *)

(** The first key that [get_node_info] subscripts and the node lacks. *)
Definition first_missing_key (n : node) : option string :=
  match cpus n, real_memory n, gres n with
  | None, _, _ => Some "cpus"
  | Some _, None, _ => Some "real_memory"
  | Some _, Some _, None => Some "gres"
  | Some _, Some _, Some _ => None
  end.


(** The keys [get_reservations] subscripts once the flags are read are
    there, and [fromtimestamp] accepts the two time numbers. *)
Definition has_usable_keys (fromtimestamp : Z -> result datetime)
    (res : raw_reservation) : Prop :=
  is_Some (name res) /\ is_Some (users res) /\ is_Some (accounts res) /\
  (exists st sn start,
     start_time res = Some st /\ number st = Some sn /\ fromtimestamp sn = Ok start) /\
  (exists et en finish,
     end_time res = Some et /\ number et = Some en /\ fromtimestamp en = Ok finish).

(** A raw reservation on which the loop of [get_reservations] goes through:
    its flags are there, and it is flagged [MAINT] or the rest can be read. *)
Definition convertible (fromtimestamp : Z -> result datetime)
    (res : raw_reservation) : Prop :=
  exists fl, flags res = Some fl /\
             (is_maint fl = true \/ has_usable_keys fromtimestamp res).

(** [sep.join(pieces)]. *)
Fixpoint join (sep : ascii) (pieces : list string) : string :=
  match pieces with
  | [] => EmptyString
  | [piece] => piece
  | piece :: pieces' => (piece ++ String sep (join sep pieces'))%string
  end.

(** A string without the character [sep]. *)
Definition free_of (sep : ascii) (s : string) : Prop :=
  Forall (fun c => c <> sep) (list_ascii_of_string s).

(** The command behind a view. *)
Definition command_of (v : view) : command :=
  match v with
  | GetAccounts username => SacctmgrShowUser username
  | GetActiveReservations _ _ => ScontrolShowRes
  | _ => ScontrolShowNode
  end.

(** The caches a view does not use are the same in two worlds. *)
Definition other_caches_kept (v : view) (w w' : World) : Prop :=
  match v with
  | GetAccounts _ =>
      info_cache (self w') = info_cache (self w) /\ res_cache (self w') = res_cache (self w)
  | GetActiveReservations _ _ =>
      info_cache (self w') = info_cache (self w) /\ acct_cache (self w') = acct_cache (self w)
  | _ =>
      acct_cache (self w') = acct_cache (self w) /\ res_cache (self w') = res_cache (self w)
  end.

(** A reservation flagged [MAINT] that has no other key. *)
Definition res_maint_bare : raw_reservation :=
  {| name := None; flags := Some ["MAINT"]; users := None; accounts := None;
     start_time := None; end_time := None |}.

(** A reservation without an end time. *)
Definition res_open_ended : raw_reservation :=
  {| name := Some "open"; flags := Some []; users := Some "alice"; accounts := Some "";
     start_time := Some (time_at 100); end_time := None |}.

(** A node whose object has no [real_memory] key. *)
Definition node_without_memory : node :=
  {| cpus := Some 4; real_memory := None; specialized_memory := None;
     gres := None; partitions := None; active_features := None |}.

(** The command succeeds again after a first failure. *)
Definition env_recovering : Env :=
  {| scontrol_show_node := fun n =>
       match n with
       | O => NonZeroExit 1
       | _ => Returned {| nodes := Some [node_a; node_b] |}
       end;
     sacctmgr_show_user := fun _ _ => NonZeroExit 1;
     scontrol_show_res := fun _ => NonZeroExit 1;
     fromtimestamp := fun n => Ok n |}.


(** A listing whose second node lacks [real_memory]. *)
Definition env_without_memory : Env :=
  constant_env (Returned {| nodes := Some [node_a; node_without_memory; node_without_gres] |})
               (NonZeroExit 1) (NonZeroExit 1).

(** A listing with a bare [MAINT] reservation. *)
Definition env_maint_bare : Env :=
  constant_env (NonZeroExit 1) (NonZeroExit 1)
               (Returned {| reservations := Some [res_maint_bare; res_team] |}).

(** [datetime.fromtimestamp] where it raises [ValueError] from the year 10000
    on. *)
Definition local_time (n : Z) : result datetime :=
  if n <? 253402300800 then Ok n else Raise ValueError.

(** A reservation with every key, whose end is out of that range. *)
Definition res_far : raw_reservation :=
  {| name := Some "far"; flags := Some []; users := Some "alice"; accounts := Some "teamA";
     start_time := Some (time_at 100); end_time := Some (time_at 253402300800) |}.

Definition env_far : Env :=
  {| scontrol_show_node := fun _ => NonZeroExit 1;
     sacctmgr_show_user := fun _ _ => NonZeroExit 1;
     scontrol_show_res := fun _ =>
       Returned {| reservations := Some [res_maint_bare; res_team; res_far] |};
     fromtimestamp := local_time |}.

(** The number of commands a read runs: none on a live entry, else one. *)
Definition misses (b : bool) : nat := if b then 0%nat else 1%nat.

(** The effect of one memoised read, whatever its result. *)
Record read_effect (v : view) (w w' : World) (n : nat) : Prop := {
  effect_monotonic : monotonic w' = monotonic w;
  effect_wall_clock : wall_clock w' = wall_clock w;
  effect_others : other_caches_kept v w w';
  effect_calls : calls w' = calls w ++ replicate n (command_of v);
}.

(** ** Ordering of strings *)

Lemma string_compare_refl (s : string) : String.compare s s = Eq.
Proof.
  induction s as [|c s IH]; simpl; [reflexivity|].
  unfold Ascii.compare. rewrite N.compare_refl. exact IH.
Qed.

Lemma string_compare_trans_lt (a b c : string) :
  String.compare a b = Lt -> String.compare b c = Lt -> String.compare a c = Lt.
Proof.
  revert b c. induction a as [|x a IH]; intros [|y b] [|z c]; simpl; try congruence.
  unfold Ascii.compare.
  destruct (N.compare_spec (N_of_ascii x) (N_of_ascii y)) as [Hxy|Hxy|Hxy];
    destruct (N.compare_spec (N_of_ascii y) (N_of_ascii z)) as [Hyz|Hyz|Hyz];
    try congruence; intros H1 H2.
  - rewrite Hxy, Hyz, N.compare_refl. eauto.
  - rewrite Hxy. apply N.compare_lt_iff in Hyz. rewrite Hyz. reflexivity.
  - rewrite <- Hyz. apply N.compare_lt_iff in Hxy. rewrite Hxy. reflexivity.
  - assert (N_of_ascii x < N_of_ascii z)%N as Hxz by lia.
    apply N.compare_lt_iff in Hxz. rewrite Hxz. reflexivity.
Qed.

Lemma str_le_cases (a b : string) :
  str_le a b <-> String.compare a b = Lt \/ a = b.
Proof.
  unfold str_le, String.leb. split.
  - destruct (String.compare a b) eqn:E; try discriminate; intros _.
    + right. apply String.compare_eq_iff. exact E.
    + left. reflexivity.
  - intros [H| ->]; [rewrite H | rewrite string_compare_refl]; reflexivity.
Qed.

Global Instance str_le_total : Total str_le.
Proof. intros a b. apply String.leb_total. Qed.

Global Instance str_le_trans : Transitive str_le.
Proof.
  intros a b c Hab Hbc. apply str_le_cases in Hab, Hbc. apply str_le_cases.
  destruct Hab as [Hab| ->]; destruct Hbc as [Hbc| ->]; eauto using string_compare_trans_lt.
Qed.

Global Instance str_le_antisym : AntiSymm eq str_le.
Proof. intros a b. apply String.leb_antisym. Qed.

(** ** [sorted(set(xs))] *)

Lemma sorted_int_set (xs : list Z) :
  let out := sorted_int (elements (list_to_set xs : gset Z)) in
  Sorted Z.le out /\ NoDup out /\ forall x, x ∈ out <-> x ∈ xs.
Proof.
  unfold sorted_int. split; [|split].
  - apply Sorted_merge_sort. apply _.
  - rewrite merge_sort_Permutation. apply NoDup_elements.
  - intros x. rewrite merge_sort_Permutation, elem_of_elements, elem_of_list_to_set.
    reflexivity.
Qed.

Lemma sorted_str_elements (X : gset string) :
  let out := sorted_str (elements X) in
  Sorted str_le out /\ NoDup out /\ forall x, x ∈ out <-> x ∈ X.
Proof.
  unfold sorted_str. split; [|split].
  - apply Sorted_merge_sort. apply _.
  - rewrite merge_sort_Permutation. apply NoDup_elements.
  - intros x. rewrite merge_sort_Permutation, elem_of_elements. reflexivity.
Qed.

(** ** The caches *)

Section CacheFacts.
Context {K V : Type} `{EqDecision K}.
Implicit Types (c : TTLCache K V) (k : K) (v : V) (es : list (K * V * Z)).

Lemma find_app_none {A} (P : A -> bool) (l l' : list A) :
  (forall x, In x l -> P x = false) -> List.find P (l ++ l') = List.find P l'.
Proof.
  induction l as [|x l IH]; simpl; intros Hl; [reflexivity|].
  rewrite (Hl x) by auto. apply IH. auto.
Qed.

Lemma find_filter_same {A} (P : A -> bool) (l : list A) :
  List.find P (List.filter P l) = List.find P l.
Proof.
  induction l as [|x l IH]; simpl; [reflexivity|].
  destruct (P x) eqn:E; simpl; rewrite ?E; auto.
Qed.

Lemma cache_get_touch now k c :
  cache_get now k (cache_touch k c) = cache_get now k c.
Proof.
  unfold cache_get, cache_touch, valid; simpl.
  rewrite find_app_none, find_filter_same; [reflexivity|].
  intros x Hx. apply filter_In in Hx as [_ Hx].
  destruct (has_key k x); [discriminate|reflexivity].
Qed.

Lemma in_drop {A} (n : nat) (l : list A) (x : A) : In x (drop n l) -> In x l.
Proof.
  revert n. induction l as [|y l IH]; intros [|n]; simpl; auto.
  intros Hx. right. exact (IH n Hx).
Qed.

Lemma cache_get_put now now' k v c :
  1 <= maxsize c ->
  cache_get now' k (cache_put now k v c)
  = if now' - now <? ttl c then Some v else None.
Proof.
  intros Hsize. unfold cache_put.
  destruct (Z.ltb_spec (maxsize c) 1) as [Hlt|_]; [lia|].
  unfold cache_get, valid; simpl.
  rewrite find_app_none.
  - simpl. unfold has_key at 1; simpl. rewrite bool_decide_eq_true_2 by reflexivity.
    reflexivity.
  - intros x Hx. apply in_drop in Hx.
    apply filter_In in Hx as [_ Hin].
    destruct (has_key k x); [|reflexivity].
    rewrite andb_false_r in Hin. discriminate.
Qed.

(** A cache without room for one entry is left as it is. *)
Lemma cache_put_refused now k v c : maxsize c < 1 -> cache_put now k v c = c.
Proof.
  intros Hsize. unfold cache_put.
  destruct (Z.ltb_spec (maxsize c) 1) as [_|Hge]; [reflexivity|lia].
Qed.

(** The capacity is the maximum entry count. *)
Lemma cache_put_bounded now k v c :
  1 <= maxsize c ->
  Z.of_nat (List.length (entries (cache_put now k v c))) <= maxsize c.
Proof.
  intros Hsize. unfold cache_put.
  destruct (Z.ltb_spec (maxsize c) 1) as [Hlt|_]; [lia|]. simpl.
  rewrite length_app, length_drop. simpl. lia.
Qed.

Lemma cache_touch_config k c :
  maxsize (cache_touch k c) = maxsize c /\ ttl (cache_touch k c) = ttl c.
Proof. split; reflexivity. Qed.

Lemma cache_put_config now k v c :
  maxsize (cache_put now k v c) = maxsize c /\ ttl (cache_put now k v c) = ttl c.
Proof. unfold cache_put. destruct (maxsize c <? 1); split; reflexivity. Qed.

(** An entry that is not live stays so as time goes on. *)
Lemma cache_get_expired now now' k c :
  cache_get now k c = None -> now <= now' -> cache_get now' k c = None.
Proof.
  unfold cache_get, valid.
  destruct (List.find (has_key k) (entries c)) as [e|]; [|reflexivity].
  destruct (Z.ltb_spec (now - e.2) (ttl c)); [discriminate|]. intros _ Hle.
  destruct (Z.ltb_spec (now' - e.2) (ttl c)); [lia|reflexivity].
Qed.

(** The entry found for a key does not depend on the time of the lookup. *)
Lemma cache_get_agree now now' k c v v' :
  cache_get now k c = Some v -> cache_get now' k c = Some v' -> v = v'.
Proof.
  unfold cache_get. destruct (List.find (has_key k) (entries c)) as [e|]; [|discriminate].
  destruct (valid c now e), (valid c now' e); congruence.
Qed.

End CacheFacts.

(** ** The memoising decorator *)

Section Memo.
Context {K V : Type} `{EqDecision K}.
Variable cache : SlurmAPI -> TTLCache K V.
Variable set_cache : TTLCache K V -> SlurmAPI -> SlurmAPI.
Hypothesis cache_set_cache : forall c s,
  maxsize c = maxsize (cache s) -> ttl c = ttl (cache s) -> cache (set_cache c s) = c.
Variable k : K.
Variable cmd : command.
Variable method : M V.
Hypothesis method_logged : forall w, snd (method w) = logged cmd w.

Lemma cache_set_touch s :
  cache (set_cache (cache_touch k (cache s)) s) = cache_touch k (cache s).
Proof. apply cache_set_cache; reflexivity. Qed.

Lemma cache_set_put now v s :
  cache (set_cache (cache_put now k v (cache s)) s) = cache_put now k v (cache s).
Proof. apply cache_set_cache; apply cache_put_config. Qed.

Lemma cachedmethod_returns w v w' :
  1 <= maxsize (cache (self w)) ->
  cachedmethod cache set_cache k method w = (Ok v, w') ->
  memo_step cache k cmd w v w'.
Proof.
  intros Hsize. unfold cachedmethod.
  destruct (cache_get (monotonic w) k (cache (self w))) as [v0|] eqn:Hget.
  - intros [= <- <-]. split; simpl; rewrite ?cache_set_touch; try reflexivity.
    left. split; [reflexivity|]. split; [exact Hget|].
    intros t. apply cache_get_touch.
  - pose proof (method_logged w) as Hlog.
    destruct (method w) as [[v0|e] w1]; simpl in Hlog; subst w1; [|discriminate].
    intros [= <- <-]. split; simpl; rewrite ?cache_set_put; try reflexivity.
    + apply cache_put_config.
    + right. split; [reflexivity|]. split; [exact Hget|].
      intros t. apply cache_get_put. exact Hsize.
Qed.

Lemma cachedmethod_hit w v :
  cache_get (monotonic w) k (cache (self w)) = Some v ->
  exists w', cachedmethod cache set_cache k method w = (Ok v, w') /\
             memo_step cache k cmd w v w' /\ calls w' = calls w.
Proof.
  intros Hget. unfold cachedmethod. rewrite Hget. eexists. split; [reflexivity|].
  split; [|reflexivity].
  split; simpl; rewrite ?cache_set_touch; try reflexivity.
  left. split; [reflexivity|]. split; [exact Hget|].
  intros t. apply cache_get_touch.
Qed.
End Memo.

(** ** The three memoised methods *)

Lemma bind_returns {A B} (m : M A) (f : A -> M B) w b w' :
  bind m f w = (Ok b, w') ->
  exists a w1, m w = (Ok a, w1) /\ f a w1 = (Ok b, w').
Proof.
  unfold bind. destruct (m w) as [[a|e] w1]; [|discriminate].
  intros Hf. exists a, w1. auto.
Qed.

Lemma get_node_info_body_logged env w :
  snd (get_node_info_body env w) = logged ScontrolShowNode w.
Proof.
  unfold get_node_info_body, check_output.
  destruct (scontrol_show_node env _) as [doc|rc|]; reflexivity.
Qed.

Lemma get_accounts_body_logged env username w :
  snd (get_accounts_body env username w) = logged (SacctmgrShowUser username) w.
Proof.
  unfold get_accounts_body, check_output.
  destruct (sacctmgr_show_user env username _) as [out|rc|]; reflexivity.
Qed.

Lemma get_reservations_body_logged env w :
  snd (get_reservations_body env w) = logged ScontrolShowRes w.
Proof.
  unfold get_reservations_body, check_output.
  destruct (scontrol_show_res env _) as [doc|rc|]; reflexivity.
Qed.

Lemma info_cache_set c s :
  maxsize c = maxsize (info_cache s) -> ttl c = ttl (info_cache s) ->
  info_cache (set_info_cache c s) = c.
Proof. destruct c. simpl. intros -> ->. reflexivity. Qed.

Lemma acct_cache_set c s :
  maxsize c = maxsize (acct_cache s) -> ttl c = ttl (acct_cache s) ->
  acct_cache (set_acct_cache c s) = c.
Proof. destruct c. simpl. intros -> ->. reflexivity. Qed.

Lemma res_cache_set c s :
  maxsize c = maxsize (res_cache s) -> ttl c = ttl (res_cache s) ->
  res_cache (set_res_cache c s) = c.
Proof. destruct c. simpl. intros -> ->. reflexivity. Qed.

(** [__init__] builds the three caches empty, with the capacities and the
    TTLs of the source. *)
Lemma init_caches config :
  info_cache (init config) = new_cache 1 (info_cache_ttl config) /\
  acct_cache (init config) = new_cache (acct_cache_size config) (acct_cache_ttl config) /\
  res_cache (init config) = new_cache 1 (res_cache_ttl config).
Proof. repeat split. Qed.

Lemma get_node_info_returns env w v w' :
  get_node_info env w = (Ok v, w') -> memo_step info_cache tt ScontrolShowNode w v w'.
Proof.
  apply cachedmethod_returns;
    [apply info_cache_set|apply get_node_info_body_logged|simpl; lia].
Qed.

Lemma get_node_info_hit env w v :
  cache_get (monotonic w) tt (info_cache (self w)) = Some v ->
  exists w', get_node_info env w = (Ok v, w') /\
             memo_step info_cache tt ScontrolShowNode w v w' /\ calls w' = calls w.
Proof. apply cachedmethod_hit. apply info_cache_set. Qed.

Lemma get_accounts_returns env username w v w' :
  1 <= maxsize (acct_cache (self w)) ->
  get_accounts env username w = (Ok v, w') ->
  memo_step acct_cache username (SacctmgrShowUser username) w v w'.
Proof.
  apply cachedmethod_returns; [apply acct_cache_set|apply get_accounts_body_logged].
Qed.

Lemma get_accounts_hit env username w v :
  cache_get (monotonic w) username (acct_cache (self w)) = Some v ->
  exists w', get_accounts env username w = (Ok v, w') /\
             memo_step acct_cache username (SacctmgrShowUser username) w v w' /\
             calls w' = calls w.
Proof. apply cachedmethod_hit. apply acct_cache_set. Qed.

Lemma get_reservations_returns env w v w' :
  get_reservations env w = (Ok v, w') -> memo_step res_cache tt ScontrolShowRes w v w'.
Proof.
  apply cachedmethod_returns;
    [apply res_cache_set|apply get_reservations_body_logged|simpl; lia].
Qed.

Lemma get_reservations_hit env w v :
  cache_get (monotonic w) tt (res_cache (self w)) = Some v ->
  exists w', get_reservations env w = (Ok v, w') /\
             memo_step res_cache tt ScontrolShowRes w v w' /\ calls w' = calls w.
Proof. apply cachedmethod_hit. apply res_cache_set. Qed.

(** A memoised read that returned [v] ran at most one command, and while its
    entry is live a later lookup finds [v]. *)
Lemma memo_step_later {K V} `{EqDecision K} (cache : SlurmAPI -> TTLCache K V)
    k cmd w v w' t :
  memo_step cache k cmd w v w' ->
  is_Some (cache_get t k (cache (self w'))) ->
  cache_get t k (cache (self w')) = Some v /\
  (List.length (calls w') <= List.length (calls w) + 1)%nat.
Proof.
  intros [_ _ _ [(Hc & Hget & Hlater)|(Hc & Hget & Hlater)]] [v' Hv'].
  - split; [|rewrite Hc; lia].
    rewrite Hv'. f_equal. symmetry. eapply cache_get_agree; [exact Hget|].
    rewrite <- Hlater. exact Hv'.
  - split; [|rewrite Hc, length_app; simpl; lia].
    rewrite Hlater in Hv' |- *. destruct (t - monotonic w <? _); [reflexivity|discriminate].
Qed.

(** Two reads in a row at the same instant: when the entry is live later on,
    they ran at most one command between them and returned the same value. *)
Lemma memo_step_twice {K V} `{EqDecision K} (cache : SlurmAPI -> TTLCache K V)
    k cmd w v w1 v' w2 t :
  memo_step cache k cmd w v w1 ->
  memo_step cache k cmd w1 v' w2 ->
  monotonic w <= t ->
  is_Some (cache_get t k (cache (self w2))) ->
  v' = v /\ cache_get t k (cache (self w2)) = Some v /\
  (List.length (calls w2) <= List.length (calls w) + 1)%nat.
Proof.
  intros S1 S2 Ht Hlive.
  destruct (memo_step_later _ _ _ _ _ _ _ S2 Hlive) as [Hv' _].
  destruct S2 as [Hm2 _ Httl2 [(Hc2 & Hget2 & Hlater2)|(Hc2 & Hget2 & Hlater2)]].
  - (* the second read was a hit *)
    assert (is_Some (cache_get (monotonic w1) k (cache (self w1)))) as Hl1 by eauto.
    destruct (memo_step_later _ _ _ _ _ _ _ S1 Hl1) as [Hv1 Hn].
    assert (v' = v) as -> by congruence.
    rewrite Hc2. auto.
  - (* the second read was a miss: then so was the first, and the TTL is not
       positive, so that nothing is live later *)
    exfalso. rewrite Hlater2 in Hv'.
    destruct (t - monotonic w1 <? ttl (cache (self w1))) eqn:E; [|discriminate].
    apply Z.ltb_lt in E.
    destruct S1 as [Hm1 _ Httl1 [(Hc1 & Hget1 & Hlater1)|(Hc1 & Hget1 & Hlater1)]].
    + rewrite Hm1, Hlater1, Hget1 in Hget2. discriminate.
    + rewrite Hlater1 in Hget2. rewrite Hm1, Httl1 in *.
      destruct (monotonic w - monotonic w <? ttl (cache (self w))) eqn:E'; [discriminate|].
      apply Z.ltb_ge in E'. lia.
Qed.

Ltac invert_run :=
  repeat match goal with
  | H : bind _ _ _ = (Ok _, _) |- _ =>
      let a := fresh "a" in let w := fresh "w" in let Hm := fresh "Hm" in
      apply bind_returns in H as (a & w & Hm & H)
  | H : ret _ ?wf = (Ok _, _) |- _ =>
      let Hw := fresh "Hw" in unfold ret in H; injection H as <- Hw; subst wf
  | H : returning _ _ _ = (Ok _, _) |- _ => unfold returning in H
  end.

(** A view that reads one memoised value and projects it. *)
Lemma projected_read_again {K V B} `{EqDecision K} (cache : SlurmAPI -> TTLCache K V)
    k cmd (m : M V) (f : V -> B) w0 r1 w1 t wall :
  (forall w v w', m w = (Ok v, w') -> memo_step cache k cmd w v w') ->
  (forall w v, cache_get (monotonic w) k (cache (self w)) = Some v ->
     exists w', m w = (Ok v, w') /\ memo_step cache k cmd w v w' /\ calls w' = calls w) ->
  (x <- m ;; ret (f x)) w0 = (Ok r1, w1) ->
  is_Some (cache_get t k (cache (self w1))) ->
  exists w2, (x <- m ;; ret (f x)) (at_time t wall w1) = (Ok r1, w2) /\
             calls w2 = calls w1 /\
             (List.length (calls w1) <= List.length (calls w0) + 1)%nat.
Proof.
  intros Hret Hhit Hrun Hlive. invert_run.
  destruct (memo_step_later _ _ _ _ _ _ _ (Hret _ _ _ Hm) Hlive) as [Hget Hn].
  destruct (Hhit (at_time t wall w1) a Hget) as (w2 & Hrun2 & _ & Hc).
  exists w2. unfold bind. rewrite Hrun2. auto.
Qed.

Lemma is_online_again env w0 r1 w1 t wall :
  is_online env w0 = (Ok r1, w1) ->
  monotonic w0 <= t ->
  is_Some (cache_get t tt (info_cache (self w1))) ->
  exists w2, is_online env (at_time t wall w1) = (Ok r1, w2) /\
             calls w2 = calls w1 /\
             (List.length (calls w1) <= List.length (calls w0) + 1)%nat.
Proof.
  unfold is_online. intros Hrun Ht Hlive. invert_run.
  apply get_node_info_returns in Hm as S1.
  destruct (truthy_list (cpu a)) eqn:Hcpu.
  - invert_run. apply get_node_info_returns in Hm0 as S2.
    destruct (memo_step_twice _ _ _ _ _ _ _ _ _ S1 S2 Ht Hlive) as (-> & Hget & Hn).
    destruct (get_node_info_hit env (at_time t wall w1) a Hget) as (wa & Hrun1 & Sa & Hca).
    assert (cache_get (monotonic wa) tt (info_cache (self wa)) = Some a) as Hget'.
    { destruct Sa as [-> _ _ [(_ & _ & ->)|(_ & Hnone & _)]]; [exact Hget|].
      simpl in Hnone. congruence. }
    destruct (get_node_info_hit env wa a Hget') as (wb & Hrun2 & _ & Hcb).
    exists wb. unfold bind. rewrite Hrun1, Hcpu, Hrun2. unfold ret.
    split; [reflexivity|]. split; [|exact Hn].
    rewrite Hcb, Hca. reflexivity.
  - invert_run.
    destruct (memo_step_later _ _ _ _ _ _ _ S1 Hlive) as [Hget Hn].
    destruct (get_node_info_hit env (at_time t wall w1) a Hget) as (wa & Hrun1 & _ & Hca).
    exists wa. unfold bind. rewrite Hrun1, Hcpu. auto.
Qed.

Lemma get_active_reservations_again env username accounts w0 r1 w1 t wall :
  get_active_reservations env username accounts w0 = (Ok r1, w1) ->
  is_Some (cache_get t tt (res_cache (self w1))) ->
  exists r2 w2,
    get_active_reservations env username accounts (at_time t wall w1) = (Ok r2, w2) /\
    calls w2 = calls w1 /\
    (List.length (calls w1) <= List.length (calls w0) + 1)%nat /\
    (wall = wall_clock w0 -> r2 = r1).
Proof.
  unfold get_active_reservations. intros Hrun Hlive. invert_run.
  apply get_reservations_returns in Hm as S1.
  assert (w = w1 /\ wall_clock w = wall_clock w0 /\
          r1 = if negb (truthy_list a) then []
               else List.filter (is_active username (list_to_set accounts) (wall_clock w0)) a)
    as (-> & Hwall & ->).
  { destruct S1 as [_ Hw _ _]. destruct (negb (truthy_list a)); invert_run.
    - auto.
    - unfold datetime_now in Hm0. injection Hm0 as <- <-. rewrite Hw. auto. }
  destruct (memo_step_later _ _ _ _ _ _ _ S1 Hlive) as [Hget Hn].
  destruct (get_reservations_hit env (at_time t wall w1) a Hget) as (wa & Hrun1 & Sa & Hca).
  destruct Sa as [_ Hwa _ _]. simpl in Hwa.
  unfold bind. rewrite Hrun1. destruct (negb (truthy_list a)).
  - eexists _, _. split; [reflexivity|]. auto.
  - unfold datetime_now, ret. eexists _, _. split; [reflexivity|].
    split; [exact Hca|]. split; [exact Hn|]. intros ->. rewrite Hwa. reflexivity.
Qed.

(** A call that returned is followed, while the entry behind the view is
    live, by a call that runs no command. *)
Lemma live_entry_served env v w0 r1 w1 t wall :
  1 <= maxsize_of v w0 ->
  call env v w0 = (Ok r1, w1) ->
  monotonic w0 <= t ->
  live_entry v (at_time t wall w1) = true ->
  exists r2 w2,
    call env v (at_time t wall w1) = (Ok r2, w2) /\
    calls w2 = calls w1 /\
    (List.length (calls w1) <= List.length (calls w0) + 1)%nat /\
    (wall = wall_clock w0 -> r2 = r1).
Proof.
  intros Hsize Hrun Ht Hlive.
  destruct v; simpl in Hsize, Hrun, Hlive |- *; apply bool_decide_eq_true in Hlive;
    unfold returning in *;
    apply bind_returns in Hrun as (a & wa & Hrun & Hret);
    unfold ret in Hret; injection Hret as <- ->.
  - destruct (is_online_again _ _ _ _ _ wall Hrun Ht Hlive) as (w2 & H2 & Hc & Hn).
    exists (PyInts a), w2. unfold bind. rewrite H2. auto.
  - destruct (projected_read_again info_cache tt ScontrolShowNode _ _ _ _ _ t wall
                (get_node_info_returns env) (get_node_info_hit env) Hrun Hlive)
      as (w2 & H2 & Hc & Hn).
    exists (PyInts a), w2. unfold bind at 1. unfold get_cpus. rewrite H2. auto.
  - destruct (projected_read_again info_cache tt ScontrolShowNode _ _ _ _ _ t wall
                (get_node_info_returns env) (get_node_info_hit env) Hrun Hlive)
      as (w2 & H2 & Hc & Hn).
    exists (PyInts a), w2. unfold bind at 1. unfold get_mems. rewrite H2. auto.
  - destruct (projected_read_again info_cache tt ScontrolShowNode _ _ _ _ _ t wall
                (get_node_info_returns env) (get_node_info_hit env) Hrun Hlive)
      as (w2 & H2 & Hc & Hn).
    exists (PyStrs a), w2. unfold bind at 1. unfold get_gres. rewrite H2. auto.
  - destruct (projected_read_again info_cache tt ScontrolShowNode _ _ _ _ _ t wall
                (get_node_info_returns env) (get_node_info_hit env) Hrun Hlive)
      as (w2 & H2 & Hc & Hn).
    exists (PyStrs a), w2. unfold bind at 1. unfold get_partitions. rewrite H2. auto.
  - destruct (projected_read_again info_cache tt ScontrolShowNode _ _ _ _ _ t wall
                (get_node_info_returns env) (get_node_info_hit env) Hrun Hlive)
      as (w2 & H2 & Hc & Hn).
    exists (PyStrs a), w2. unfold bind at 1. unfold get_features. rewrite H2. auto.
  - destruct (memo_step_later _ _ _ _ _ _ _ (get_accounts_returns _ _ _ _ _ Hsize Hrun) Hlive)
      as [Hget Hn].
    destruct (get_accounts_hit env username (at_time t wall w1) a Hget) as (w2 & H2 & _ & Hc).
    exists (PyStrs a), w2. unfold bind. rewrite H2. auto.
  - destruct (get_active_reservations_again _ _ _ _ _ _ _ wall Hrun Hlive)
      as (r2 & w2 & H2 & Hc & Hn & Heq).
    exists (PyReservations r2), w2. unfold bind. rewrite H2.
    split; [reflexivity|]. split; [exact Hc|]. split; [exact Hn|].
    intros Hw. rewrite (Heq Hw). reflexivity.
Qed.

(** After a fetch, the entry is live exactly during the TTL window that
    starts at the fetch. *)
Lemma memo_step_window {K V} `{EqDecision K} (cache : SlurmAPI -> TTLCache K V)
    k cmd w v w' t :
  memo_step cache k cmd w v w' ->
  cache_get (monotonic w) k (cache (self w)) = None ->
  is_Some (cache_get t k (cache (self w'))) <-> t - monotonic w < ttl (cache (self w)).
Proof.
  intros [_ _ _ [(_ & Hget & _)|(_ & _ & ->)]] Hmiss; [congruence|].
  destruct (Z.ltb_spec (t - monotonic w) (ttl (cache (self w)))) as [Hlt|Hge].
  - split; eauto.
  - split; [intros [x Hx]; discriminate|lia].
Qed.

Lemma memo_step_twice_window {K V} `{EqDecision K} (cache : SlurmAPI -> TTLCache K V)
    k cmd w v w1 v' w2 t :
  memo_step cache k cmd w v w1 ->
  memo_step cache k cmd w1 v' w2 ->
  cache_get (monotonic w) k (cache (self w)) = None ->
  is_Some (cache_get t k (cache (self w2))) <-> t - monotonic w < ttl (cache (self w)).
Proof.
  intros S1 S2 Hmiss.
  pose proof (memo_step_window _ _ _ _ _ _ t S1 Hmiss) as Hw1.
  destruct S1 as [Hm1 _ Httl1 _].
  destruct S2 as [_ _ _ [(_ & _ & ->)|(_ & _ & ->)]]; [exact Hw1|].
  rewrite Hm1, Httl1.
  destruct (Z.ltb_spec (t - monotonic w) (ttl (cache (self w)))) as [Hlt|Hge].
  - split; eauto.
  - split; [intros [x Hx]; discriminate|lia].
Qed.

Lemma not_live_none {V} (o : option V) : bool_decide (is_Some o) = false -> o = None.
Proof.
  destruct o as [x|]; [|reflexivity].
  intros H. apply bool_decide_eq_false in H. exfalso. apply H. eauto.
Qed.

(** After a call that found no live entry, the entry behind the view is live
    at a later time iff that time is within the TTL of the call. *)
Lemma live_entry_window env v w0 r1 w1 t wall :
  1 <= maxsize_of v w0 ->
  call env v w0 = (Ok r1, w1) ->
  live_entry v w0 = false ->
  live_entry v (at_time t wall w1) = true <-> t - monotonic w0 < ttl_of v w0.
Proof.
  intros Hsize Hrun Hmiss.
  destruct v; simpl in Hsize, Hrun, Hmiss |- *; apply not_live_none in Hmiss;
    rewrite bool_decide_eq_true; unfold returning in Hrun;
    apply bind_returns in Hrun as (a & wa & Hrun & Hret);
    unfold ret in Hret; injection Hret as <- ->.
  - unfold is_online in Hrun. invert_run.
    apply get_node_info_returns in Hm as S1.
    destruct (truthy_list (cpu a0)); invert_run.
    + apply get_node_info_returns in Hm0 as S2.
      exact (memo_step_twice_window _ _ _ _ _ _ _ _ t S1 S2 Hmiss).
    + exact (memo_step_window _ _ _ _ _ _ t S1 Hmiss).
  - unfold get_cpus in Hrun. invert_run.
    exact (memo_step_window _ _ _ _ _ _ t (get_node_info_returns _ _ _ _ Hm) Hmiss).
  - unfold get_mems in Hrun. invert_run.
    exact (memo_step_window _ _ _ _ _ _ t (get_node_info_returns _ _ _ _ Hm) Hmiss).
  - unfold get_gres in Hrun. invert_run.
    exact (memo_step_window _ _ _ _ _ _ t (get_node_info_returns _ _ _ _ Hm) Hmiss).
  - unfold get_partitions in Hrun. invert_run.
    exact (memo_step_window _ _ _ _ _ _ t (get_node_info_returns _ _ _ _ Hm) Hmiss).
  - unfold get_features in Hrun. invert_run.
    exact (memo_step_window _ _ _ _ _ _ t (get_node_info_returns _ _ _ _ Hm) Hmiss).
  - exact (memo_step_window _ _ _ _ _ _ t (get_accounts_returns _ _ _ _ _ Hsize Hrun) Hmiss).
  - unfold get_active_reservations in Hrun. invert_run.
    apply get_reservations_returns in Hm as S1.
    assert (w = w1) as ->.
    { destruct (negb (truthy_list a0)); invert_run; [reflexivity|].
      unfold datetime_now in Hm0. injection Hm0 as _ <-. reflexivity. }
    exact (memo_step_window _ _ _ _ _ _ t S1 Hmiss).
Qed.

(** C3 (amended): for each of the three caches and every key, provided the
    cache has room for at least one entry (the node-info and the reservation
    cache always have, the accounts cache when [acct_cache_size] is at least
    1), take two calls of the same public method, the first of which
    returned.  If the first call fetched, let the second be within the TTL of
    that fetch; if the first was itself served from the cache, let its entry
    not have expired by the second call.  Then the second call returns
    without running any command, so that the two calls ran the command at most
    once between them; with the same wall clock the second call returns the
    same value. *)
Theorem second_call_served_from_cache env v w0 r1 w1 t wall :
  1 <= maxsize_of v w0 ->
  call env v w0 = (Ok r1, w1) ->
  monotonic w0 <= t ->
  (live_entry v w0 = false -> t - monotonic w0 < ttl_of v w0) ->
  (live_entry v w0 = true -> live_entry v (at_time t wall w1) = true) ->
  exists r2 w2,
    call env v (at_time t wall w1) = (Ok r2, w2) /\
    calls w2 = calls w1 /\
    (List.length (calls w1) <= List.length (calls w0) + 1)%nat /\
    (wall = wall_clock w0 -> r2 = r1).
Proof.
  intros Hsize Hrun Ht Hfetched Hserved.
  apply (live_entry_served env v w0 r1 w1 t wall Hsize Hrun Ht).
  destruct (live_entry v w0) eqn:Hlive.
  - apply Hserved. reflexivity.
  - apply (live_entry_window env v w0 r1 w1 t wall Hsize Hrun Hlive).
    apply Hfetched. reflexivity.
Qed.

(** C3, as stated: with [acct_cache_size] 0 the accounts cache stores
    nothing, and two calls of [get_accounts] for the same user, one unit of
    time apart and well within the TTL of 300, run the command twice; and a
    call that raises stores nothing either, so that two calls of [get_cpus]
    on a listing without the [gres] key run the command twice. *)
Lemma zero_capacity_runs_twice :
  ttl_of (GetAccounts "alice") world_without_room = 300 /\
  fst (call env_example (GetAccounts "alice") world_without_room)
    = Ok (PyStrs ["def-alice"; "rrg-alice"; ""]) /\
  calls (snd (call env_example (GetAccounts "alice")
                (at_time 1 150 (snd (call env_example (GetAccounts "alice")
                                       world_without_room)))))
    = [SacctmgrShowUser "alice"; SacctmgrShowUser "alice"] /\
  fst (call env_without_gres GetCpus world0) = Raise (KeyError "gres") /\
  calls (snd (call env_without_gres GetCpus
                (at_time 1 150 (snd (call env_without_gres GetCpus world0)))))
    = [ScontrolShowNode; ScontrolShowNode].
Proof. vm_compute. repeat split. Qed.

(** ** Parsing the node listing *)

Lemma add_node_returns output n info :
  add_node output n = Ok info ->
  exists c m,
    cpus n = Some c /\ mem_entry n m /\ is_Some (gres n) /\
    cpu info = cpu output ++ [c] /\
    mem info = mem output ++ [m] /\
    gres_list info = gres_list output ++ option_list (gres_contribution n) /\
    partitions_list info = partitions_list output ++ get_default (partitions n) [] /\
    features info = features output ∪ list_to_set (option_list (feature_contribution n)).
Proof.
  unfold add_node, mem_entry, gres_contribution, feature_contribution.
  destruct (cpus n) as [c|]; [|discriminate].
  destruct (real_memory n) as [m|]; [|discriminate].
  destruct (gres n) as [g|]; [|discriminate]. simpl.
  destruct (active_features n) as [[|f fs]|]; simpl; intros [= <-]; simpl;
    exists c, (m - get_default (specialized_memory n) 0);
    (repeat split; eauto);
    try (destruct g as [[|? ?]|]; simpl; rewrite ?app_nil_r; reflexivity);
    rewrite ?(right_id_L ∅ (∪)); reflexivity.
Qed.

Lemma add_node_total output n :
  has_required_keys n -> exists info, add_node output n = Ok info.
Proof.
  intros ([c Hc] & [m Hm] & [g Hg]). unfold add_node. rewrite Hc, Hm, Hg. simpl.
  destruct (active_features n) as [[|f fs]|]; simpl; eauto.
Qed.

Lemma add_nodes_returns ns : forall output info,
  add_nodes output ns = Ok info ->
  exists cs ms,
    Forall2 (fun n c => cpus n = Some c) ns cs /\
    Forall2 mem_entry ns ms /\
    Forall has_required_keys ns /\
    cpu info = cpu output ++ cs /\
    mem info = mem output ++ ms /\
    gres_list info = gres_list output ++ omap gres_contribution ns /\
    features info = features output ∪ list_to_set (omap feature_contribution ns).
Proof.
  induction ns as [|n ns IH]; simpl; intros output info Hrun.
  - injection Hrun as <-. exists [], []. rewrite !app_nil_r.
    repeat split; try constructor. simpl. rewrite (right_id_L ∅ (∪)). reflexivity.
  - destruct (add_node output n) as [output'|e] eqn:Hn; [|discriminate]. simpl in Hrun.
    apply add_node_returns in Hn as (c & m & Hc & Hm & Hg & E1 & E2 & E3 & _ & E5).
    apply IH in Hrun as (cs & ms & Hcs & Hms & Hreq & F1 & F2 & F3 & F5).
    exists (c :: cs), (m :: ms).
    rewrite F1, F2, F3, F5, E1, E2, E3, E5, <- !app_assoc. simpl.
    assert (has_required_keys n) as Hn.
    { destruct Hm as (real & Hreal & _). unfold has_required_keys. eauto. }
    repeat split; try (constructor; assumption).
    all: destruct (gres_contribution n), (feature_contribution n); simpl;
      rewrite ?(right_id_L ∅ (∪)), <- ?(assoc_L (∪)); reflexivity.
Qed.

Lemma add_nodes_total ns : forall output,
  Forall has_required_keys ns -> exists info, add_nodes output ns = Ok info.
Proof.
  induction ns as [|n ns IH]; simpl; intros output Hreq; [eauto|].
  apply Forall_cons in Hreq as [Hn Hns].
  destruct (add_node_total output n Hn) as [output' ->]. simpl. apply IH, Hns.
Qed.

(** What a fetch makes of the command's outcome. *)
Lemma get_node_info_fetch env w :
  cache_get (monotonic w) tt (info_cache (self w)) = None ->
  fst (get_node_info env w) =
    match scontrol_show_node env (List.length (calls w)) with
    | Returned doc => parse_node_info doc
    | NonZeroExit rc => Ok empty_output
    | NotLaunched => Raise FileNotFoundError
    end.
Proof.
  intros Hmiss. unfold get_node_info, cachedmethod. rewrite Hmiss.
  unfold get_node_info_body, check_output.
  destruct (scontrol_show_node env _) as [doc|rc|]; simpl; try reflexivity.
  destruct (parse_node_info doc); reflexivity.
Qed.

Lemma get_accounts_fetch env username w :
  cache_get (monotonic w) username (acct_cache (self w)) = None ->
  fst (get_accounts env username w) =
    match sacctmgr_show_user env username (List.length (calls w)) with
    | Returned out => Ok (splitlines out)
    | NonZeroExit rc => Ok []
    | NotLaunched => Raise FileNotFoundError
    end.
Proof.
  intros Hmiss. unfold get_accounts, cachedmethod. rewrite Hmiss.
  unfold get_accounts_body, check_output.
  destruct (sacctmgr_show_user env username _) as [out|rc|]; reflexivity.
Qed.

Lemma get_reservations_fetch env w :
  cache_get (monotonic w) tt (res_cache (self w)) = None ->
  fst (get_reservations env w) =
    match scontrol_show_res env (List.length (calls w)) with
    | Returned doc =>
        filter_reservations (fromtimestamp env) [] (get_default (reservations doc) [])
    | NonZeroExit rc => Ok []
    | NotLaunched => Raise FileNotFoundError
    end.
Proof.
  intros Hmiss. unfold get_reservations, cachedmethod. rewrite Hmiss.
  unfold get_reservations_body, check_output.
  destruct (scontrol_show_res env _) as [doc|rc|]; simpl; try reflexivity.
  destruct (filter_reservations _ _ _); reflexivity.
Qed.

(** ** [splitlines] *)

Lemma splitlines_line (line rest : string) :
  no_linebreak line ->
  splitlines (line ++ String LF rest) = line :: splitlines rest.
Proof.
  unfold no_linebreak. induction line as [|c line IH]; simpl; intros Hline.
  - reflexivity.
  - apply Forall_cons in Hline as [Hc Hline]. rewrite Hc, IH by exact Hline. reflexivity.
Qed.

Lemma splitlines_last (line : string) :
  no_linebreak line -> line <> EmptyString -> splitlines line = [line].
Proof.
  unfold no_linebreak. induction line as [|c line IH]; simpl; intros Hline Hne.
  - congruence.
  - apply Forall_cons in Hline as [Hc Hline]. rewrite Hc.
    destruct line as [|c' line']; [reflexivity|].
    rewrite IH by (auto; discriminate). reflexivity.
Qed.

Lemma string_app_assoc (a b c : string) :
  ((a ++ b) ++ c = a ++ (b ++ c))%string.
Proof.
  induction a as [|x a IH]; [reflexivity|].
  change (String x ((a ++ b) ++ c) = String x (a ++ (b ++ c)))%string.
  rewrite IH. reflexivity.
Qed.

Lemma splitlines_unlines (lines : list string) (last : string) :
  Forall no_linebreak lines -> no_linebreak last ->
  splitlines (unlines lines ++ last)
  = lines ++ (if decide (last = EmptyString) then [] else [last]).
Proof.
  intros Hlines Hlast. induction Hlines as [|line lines Hline _ IH]; simpl.
  - destruct (decide (last = "")) as [->|Hne]; [reflexivity|].
    apply splitlines_last; assumption.
  - rewrite <- IH, string_app_assoc. apply (splitlines_line line _ Hline).
Qed.

(** ** The node views *)

Lemma get_node_info_pair env w info :
  fst (get_node_info env w) = Ok info ->
  exists w', get_node_info env w = (Ok info, w').
Proof. destruct (get_node_info env w) as [r w']. simpl. intros ->. eauto. Qed.

Lemma call_projection env w info w' :
  get_node_info env w = (Ok info, w') ->
  call env GetCpus w
    = (Ok (PyInts (sorted_int (elements (list_to_set (cpu info) : gset Z)))), w') /\
  call env GetMems w
    = (Ok (PyInts (sorted_int (elements (list_to_set (mem info) : gset Z)))), w') /\
  call env GetGres w
    = (Ok (PyStrs ("gpu:0" :: sorted_str (elements
             ((list_to_set (gres_list info) : gset string) ∖ list_to_set ["gpu:0"])))), w') /\
  call env GetPartitions w
    = (Ok (PyStrs (sorted_str (elements
             (list_to_set (partitions_list info) : gset string)))), w') /\
  call env GetFeatures w
    = (Ok (PyStrs (sorted_str (elements
             (set_bind (fun feature_set : gset string => feature_set) (features info)
                : gset string)))), w').
Proof.
  intros Hrun. unfold call, returning, get_cpus, get_mems, get_gres, get_partitions,
    get_features, bind. rewrite Hrun. unfold ret. repeat split.
Qed.

(** C4: whenever the node information is obtained, [get_cpus], [get_mems],
    [get_partitions] and [get_features] return lists that are sorted in
    ascending order, without duplicates, and hold exactly the values of the
    raw sequences (for the features, the members of the feature sets). *)
Theorem views_sorted_distinct env w info :
  fst (get_node_info env w) = Ok info ->
  exists cs ms ps fs,
    fst (call env GetCpus w) = Ok (PyInts cs) /\
    fst (call env GetMems w) = Ok (PyInts ms) /\
    fst (call env GetPartitions w) = Ok (PyStrs ps) /\
    fst (call env GetFeatures w) = Ok (PyStrs fs) /\
    (Sorted Z.le cs /\ NoDup cs /\ forall x, x ∈ cs <-> x ∈ cpu info) /\
    (Sorted Z.le ms /\ NoDup ms /\ forall x, x ∈ ms <-> x ∈ mem info) /\
    (Sorted str_le ps /\ NoDup ps /\ forall x, x ∈ ps <-> x ∈ partitions_list info) /\
    (Sorted str_le fs /\ NoDup fs /\
     forall x, x ∈ fs <-> exists feature_set, feature_set ∈ features info /\ x ∈ feature_set).
Proof.
  intros Hinfo. apply get_node_info_pair in Hinfo as [w' Hrun].
  destruct (call_projection _ _ _ _ Hrun) as (Hc & Hm & _ & Hp & Hf).
  do 4 eexists. rewrite Hc, Hm, Hp, Hf. simpl.
  split; [reflexivity|]. split; [reflexivity|]. split; [reflexivity|].
  split; [reflexivity|].
  split; [apply sorted_int_set|]. split; [apply sorted_int_set|].
  split.
  - destruct (sorted_str_elements (list_to_set (partitions_list info))) as (S & N & E).
    split; [exact S|]. split; [exact N|].
    intros x. rewrite E, elem_of_list_to_set. reflexivity.
  - destruct (sorted_str_elements
                (set_bind (fun feature_set : gset string => feature_set) (features info)))
      as (S & N & E).
    split; [exact S|]. split; [exact N|].
    intros x. rewrite E, elem_of_set_bind. reflexivity.
Qed.

(** C5: whenever the node information is obtained, [get_gres] returns a list
    whose first element is the sentinel [gpu:0]; the sentinel does not occur
    again, and the rest is the sorted list, without duplicates, of the other
    generic-resource strings. *)
Theorem gres_sentinel_first env w info :
  fst (get_node_info env w) = Ok info ->
  exists rest,
    fst (call env GetGres w) = Ok (PyStrs ("gpu:0" :: rest)) /\
    ("gpu:0" ∉ rest) /\
    Sorted str_le rest /\ NoDup rest /\
    forall x, x ∈ rest <-> x ∈ gres_list info /\ x <> "gpu:0".
Proof.
  intros Hinfo. apply get_node_info_pair in Hinfo as [w' Hrun].
  destruct (call_projection _ _ _ _ Hrun) as (_ & _ & Hg & _).
  eexists. rewrite Hg. simpl. split; [reflexivity|].
  destruct (sorted_str_elements
              ((list_to_set (gres_list info) : gset string) ∖ list_to_set ["gpu:0"]))
    as (S & N & E).
  assert (forall x, x ∈ sorted_str (elements
            ((list_to_set (gres_list info) : gset string) ∖ list_to_set ["gpu:0"]))
          <-> x ∈ gres_list info /\ x <> "gpu:0") as E'.
  { intros x. rewrite E, elem_of_difference, !elem_of_list_to_set, list_elem_of_singleton.
    reflexivity. }
  split; [|auto]. intros Hin. apply E' in Hin as [_ Hne]. congruence.
Qed.

(** C6: when the command prints a listing and [get_node_info] returns, the
    memory sequence has one entry per node, in order, equal to the node's
    real memory minus its specialized memory (0 when the key is absent), and
    the cpu sequence has the node's cpu count; for the two nodes
    [{cpu: 4, mem: 16000, specialized: 2000}] and [{cpu: 4, mem: 32000}],
    [get_cpus] is [[4]] and [get_mems] is [[14000, 32000]]. *)
Theorem mem_sizes_per_node :
  (forall env w doc info,
     cache_get (monotonic w) tt (info_cache (self w)) = None ->
     scontrol_show_node env (List.length (calls w)) = Returned doc ->
     fst (get_node_info env w) = Ok info ->
     Forall2 mem_entry (get_default (nodes doc) []) (mem info) /\
     Forall2 (fun n c => cpus n = Some c) (get_default (nodes doc) []) (cpu info)) /\
  fst (call env_example GetCpus world0) = Ok (PyInts [4]) /\
  fst (call env_example GetMems world0) = Ok (PyInts [14000; 32000]).
Proof.
  split; [|split; vm_compute; reflexivity].
  intros env w doc info Hmiss Hout Hinfo.
  rewrite (get_node_info_fetch env w Hmiss), Hout in Hinfo.
  apply add_nodes_returns in Hinfo as (cs & ms & Hcs & Hms & _ & -> & -> & _).
  auto.
Qed.

(** C8 (amended): when the command prints a listing in which every node has
    the keys [cpus], [real_memory] and [gres], [get_node_info] returns; its
    generic-resource sequence holds the non-empty [gres] strings, in order, so
    that a node whose [gres] is [null] or the empty string contributes nothing,
    and its feature sets are those of the nodes with a non-empty
    [active_features], so that a node with an empty or absent list contributes
    nothing. *)
Theorem falsy_fields_skipped env w doc :
  cache_get (monotonic w) tt (info_cache (self w)) = None ->
  scontrol_show_node env (List.length (calls w)) = Returned doc ->
  Forall has_required_keys (get_default (nodes doc) []) ->
  exists info,
    fst (get_node_info env w) = Ok info /\
    gres_list info = omap gres_contribution (get_default (nodes doc) []) /\
    features info = list_to_set (omap feature_contribution (get_default (nodes doc) [])) /\
    (forall n, gres n = Some None \/ gres n = Some (Some "") -> gres_contribution n = None) /\
    (forall n, get_default (active_features n) [] = [] -> feature_contribution n = None).
Proof.
  intros Hmiss Hout Hreq.
  rewrite (get_node_info_fetch env w Hmiss), Hout. unfold parse_node_info.
  destruct (add_nodes_total _ empty_output Hreq) as [info Hinfo].
  exists info. split; [exact Hinfo|].
  apply add_nodes_returns in Hinfo as (cs & ms & _ & _ & _ & _ & _ & Hg & Hf).
  split; [exact Hg|]. split.
  - rewrite Hf. simpl. apply (left_id_L ∅ (∪)).
  - split.
    + intros n [Hn|Hn]; unfold gres_contribution; rewrite Hn; reflexivity.
    + intros n. unfold feature_contribution.
      destruct (active_features n) as [[|f fs]|]; simpl; [reflexivity|discriminate|reflexivity].
Qed.

(** C8, as stated: a node whose object has no [gres] key makes
    [get_node_info] raise [KeyError]. *)
Lemma absent_gres_raises :
  fst (get_node_info env_without_gres world0) = Raise (KeyError "gres").
Proof. vm_compute. reflexivity. Qed.

(** C1 (amended): when the node-inventory command exits with a non-zero
    status, [get_node_info] returns the dictionary whose sequences and set
    are all empty, [is_online] returns a false value and [get_cpus] the empty
    list. *)
Theorem node_query_nonzero_exit env w rc :
  cache_get (monotonic w) tt (info_cache (self w)) = None ->
  scontrol_show_node env (List.length (calls w)) = NonZeroExit rc ->
  (exists info,
     fst (get_node_info env w) = Ok info /\
     cpu info = [] /\ mem info = [] /\ gres_list info = [] /\
     partitions_list info = [] /\ features info = ∅) /\
  (exists r, fst (call env IsOnline w) = Ok r /\ truthy r = false) /\
  fst (call env GetCpus w) = Ok (PyInts []).
Proof.
  intros Hmiss Hout.
  pose proof (get_node_info_fetch env w Hmiss) as Hinfo. rewrite Hout in Hinfo.
  split; [exists empty_output; repeat split; exact Hinfo|].
  apply get_node_info_pair in Hinfo as [w' Hrun].
  split.
  - exists (PyInts []). unfold call, returning, is_online, bind. rewrite Hrun.
    split; reflexivity.
  - destruct (call_projection _ _ _ _ Hrun) as (-> & _). reflexivity.
Qed.

(** C1, as stated: when the command cannot be started, the exception is not
    caught. *)
Lemma unavailable_command_raises :
  fst (get_node_info env_unavailable world0) = Raise FileNotFoundError /\
  fst (call env_unavailable IsOnline world0) = Raise FileNotFoundError /\
  fst (call env_unavailable GetCpus world0) = Raise FileNotFoundError.
Proof. vm_compute. repeat split. Qed.

(** C9 (amended): [is_online] returns a list, not a boolean.  When the TTL of
    the node-info cache is positive, so that the two reads of [get_node_info]
    inside [is_online] see the same node information, and [get_node_info]
    returns, [is_online] returns the cpu sequence if it is empty and the
    memory sequence otherwise, and the truth value of what it returns is true
    iff both sequences are non-empty. *)
Theorem is_online_truth env w info :
  0 < ttl (info_cache (self w)) ->
  fst (get_node_info env w) = Ok info ->
  exists r,
    fst (call env IsOnline w) = Ok r /\
    r = PyInts (if truthy_list (cpu info) then mem info else cpu info) /\
    (truthy r = true <-> cpu info <> [] /\ mem info <> []).
Proof.
  intros Httl Hinfo. apply get_node_info_pair in Hinfo as [w1 Hrun].
  eexists. split; [|split; [reflexivity|]].
  - unfold call, returning, is_online, bind. rewrite Hrun.
    destruct (truthy_list (cpu info)); [|reflexivity].
    apply get_node_info_returns in Hrun as S1.
    assert (cache_get (monotonic w1) tt (info_cache (self w1)) = Some info) as Hget.
    { destruct S1 as [-> _ _ [(_ & Hget & ->)|(_ & _ & ->)]]; [exact Hget|].
      rewrite Z.sub_diag. destruct (Z.ltb_spec 0 (ttl (info_cache (self w)))); [reflexivity|lia]. }
    destruct (get_node_info_hit env w1 info Hget) as (w2 & -> & _). reflexivity.
  - simpl. destruct (cpu info) as [|c cs], (mem info) as [|m ms]; simpl; split; intros H;
      try discriminate; try (destruct H; congruence);
      try reflexivity; split; discriminate.
Qed.

(** C9, as stated: [is_online] returns a list, not a boolean; and with a TTL
    of 0 its two reads of [get_node_info] are two fetches, so that it returns
    a false value although the node information that [get_node_info] returns
    has both sequences non-empty. *)
Lemma is_online_returns_list :
  fst (call env_example IsOnline world0) = Ok (PyInts [14000; 32000]) /\
  (forall b, fst (call env_example IsOnline world0) <> Ok (PyBool b)) /\
  (exists info,
     fst (get_node_info env_draining world_ttl0) = Ok info /\
     cpu info = [4] /\ mem info = [14000] /\
     fst (call env_draining IsOnline world_ttl0) = Ok (PyInts [])).
Proof.
  split; [vm_compute; reflexivity|]. split; [intros b; vm_compute; discriminate|].
  eexists. split; [vm_compute; reflexivity|]. repeat split.
Qed.

(** ** Accounts *)

(** C7 (amended): on a fetch, [get_accounts] returns the empty list when the
    command exits with a non-zero status, and otherwise the lines of its
    output as [str.splitlines] cuts them: one entry per line, no entry after
    the last line terminator, and an empty entry for every blank line, also
    at the end. *)
Theorem get_accounts_lines env username w :
  cache_get (monotonic w) username (acct_cache (self w)) = None ->
  (forall rc, sacctmgr_show_user env username (List.length (calls w)) = NonZeroExit rc ->
     fst (get_accounts env username w) = Ok []) /\
  (forall out, sacctmgr_show_user env username (List.length (calls w)) = Returned out ->
     fst (get_accounts env username w) = Ok (splitlines out)) /\
  (forall lines last, Forall no_linebreak lines -> no_linebreak last ->
     splitlines (unlines lines ++ last)
     = lines ++ (if decide (last = EmptyString) then [] else [last])).
Proof.
  intros Hmiss. pose proof (get_accounts_fetch env username w Hmiss) as Hfetch.
  split; [|split].
  - intros rc Hout. rewrite Hfetch, Hout. reflexivity.
  - intros out Hout. rewrite Hfetch, Hout. reflexivity.
  - apply splitlines_unlines.
Qed.

(** C7, as stated: a blank line at the end of the output is not ignored, it
    becomes an empty account name. *)
Lemma trailing_blank_line_kept :
  accounts_output = (unlines ["def-alice"; "rrg-alice"] ++ String LF EmptyString)%string /\
  fst (get_accounts env_example "alice" world0) = Ok ["def-alice"; "rrg-alice"; ""] /\
  splitlines accounts_output <> splitlines (unlines ["def-alice"; "rrg-alice"]).
Proof. vm_compute. split; [reflexivity|]. split; [reflexivity|discriminate]. Qed.

(** ** Reservations *)

Lemma convert_reservation_cases ft raw :
  match convert_reservation ft raw with
  | Ok (Some r) => not_maint raw = true
  | Ok None => not_maint raw = false
  | Raise e => True
  end.
Proof.
  unfold convert_reservation, not_maint.
  destruct (flags raw) as [fl|]; simpl; [|exact I].
  destruct (is_maint fl); simpl; [reflexivity|].
  destruct (name raw); simpl; [|exact I].
  destruct (users raw); simpl; [|exact I].
  destruct (accounts raw); simpl; [|exact I].
  destruct (start_time raw) as [[[sn|]]|]; simpl; try exact I.
  destruct (ft sn); simpl; [|exact I].
  destruct (end_time raw) as [[[en|]]|]; simpl; try exact I.
  destruct (ft en); simpl; [|exact I].
  reflexivity.
Qed.

Lemma filter_reservations_returns ft rs : forall acc out,
  filter_reservations ft acc rs = Ok out ->
  exists new,
    out = acc ++ new /\
    Forall2 (fun raw r => convert_reservation ft raw = Ok (Some r))
            (List.filter not_maint rs) new.
Proof.
  induction rs as [|raw rs IH]; simpl; intros acc out Hrun.
  - injection Hrun as <-. exists []. rewrite app_nil_r. split; [reflexivity|constructor].
  - pose proof (convert_reservation_cases ft raw) as Hcase.
    destruct (convert_reservation ft raw) as [[r|]|e] eqn:Hconv; simpl in Hrun;
      [| |discriminate]; rewrite Hcase.
    + apply IH in Hrun as (new & -> & Hnew). exists (r :: new).
      rewrite <- app_assoc. split; [reflexivity|]. constructor; assumption.
    + apply IH in Hrun as (new & -> & Hnew). exists new. auto.
Qed.

Lemma is_active_spec username (accts : list string) now r :
  is_active username (list_to_set accts) now r = true <->
  StartTime r <= now <= EndTime r /\
  (username ∈ Users r \/ exists a, a ∈ accts /\ a ∈ Accounts r).
Proof.
  unfold is_active.
  rewrite !andb_true_iff, orb_true_iff, !bool_decide_eq_true, !Z.leb_le.
  assert ((list_to_set accts : gset string) ∩ Accounts r ≠ ∅
          <-> exists a, a ∈ accts /\ a ∈ Accounts r) as ->.
  { split.
    - intros Hne. apply set_choose_L in Hne as [a Ha].
      apply elem_of_intersection in Ha as [Ha1 Ha2].
      apply elem_of_list_to_set in Ha1. eauto.
    - intros (a & Ha1 & Ha2) Hempty.
      assert (a ∈ (list_to_set accts : gset string) ∩ Accounts r) as Ha.
      { apply elem_of_intersection. split; [apply elem_of_list_to_set|]; assumption. }
      rewrite Hempty in Ha. apply not_elem_of_empty in Ha. exact Ha. }
  tauto.
Qed.

Lemma sublist_bool_filter {A} (P : A -> bool) (l : list A) : sublist (List.filter P l) l.
Proof.
  induction l as [|x l IH]; simpl; [constructor|].
  destruct (P x); [apply sublist_skip|apply sublist_cons]; exact IH.
Qed.

Lemma get_active_reservations_run env username accts w :
  fst (get_active_reservations env username accts w) =
    match fst (get_reservations env w) with
    | Ok fetched =>
        Ok (List.filter (is_active username (list_to_set accts) (wall_clock w)) fetched)
    | Raise e => Raise e
    end.
Proof.
  unfold get_active_reservations, bind.
  destruct (get_reservations env w) as [[fetched|e] w'] eqn:Hrun; simpl; [|reflexivity].
  apply get_reservations_returns in Hrun as [_ Hwall _ _].
  destruct fetched as [|r rs]; simpl; [reflexivity|].
  unfold datetime_now, ret. simpl. rewrite Hwall. reflexivity.
Qed.

(** C2: when [get_active_reservations] returns, its result is the list that
    [get_reservations] returns, filtered in place: a reservation of that list
    is in the result iff [StartTime <= now <= EndTime] and the user is one of
    its users or one of the accounts is one of its accounts; the order is
    that of the list; and on a fetch the list holds, in order, the converted
    reservations of the command's output whose flags do not contain [MAINT]. *)
Theorem active_reservations_filter env username accts w out :
  fst (get_active_reservations env username accts w) = Ok out ->
  exists fetched,
    fst (get_reservations env w) = Ok fetched /\
    out = List.filter (is_active username (list_to_set accts) (wall_clock w)) fetched /\
    (forall r, r ∈ out <->
       r ∈ fetched /\
       StartTime r <= wall_clock w <= EndTime r /\
       (username ∈ Users r \/ exists a, a ∈ accts /\ a ∈ Accounts r)) /\
    sublist out fetched /\
    (forall doc,
       cache_get (monotonic w) tt (res_cache (self w)) = None ->
       scontrol_show_res env (List.length (calls w)) = Returned doc ->
       Forall2 (fun raw r => convert_reservation (fromtimestamp env) raw = Ok (Some r))
               (List.filter not_maint (get_default (reservations doc) [])) fetched).
Proof.
  rewrite get_active_reservations_run.
  destruct (fst (get_reservations env w)) as [fetched|e] eqn:Hfetched; [|discriminate].
  intros [= <-]. exists fetched. split; [reflexivity|]. split; [reflexivity|].
  split; [|split].
  - intros r. rewrite <- is_active_spec, !list_elem_of_In, filter_In. reflexivity.
  - apply sublist_bool_filter.
  - intros doc Hmiss Hout.
    rewrite (get_reservations_fetch env w Hmiss), Hout in Hfetched.
    apply filter_reservations_returns in Hfetched as (new & -> & Hnew). exact Hnew.
Qed.

(** The example of the specification: a reservation for user [alice] and
    account [teamA] is visible to [bob] through the account and to [alice]
    through the user, not to [carol]; the two ends of the window are
    included. *)
Example active_reservations_examples :
  fst (get_active_reservations env_example "bob" ["teamA"] world0) = Ok [workshop] /\
  fst (get_active_reservations env_example "alice" [] world0) = Ok [workshop] /\
  fst (get_active_reservations env_example "carol" ["teamB"] world0) = Ok [] /\
  fst (get_active_reservations env_example "alice" []
         (fresh_world default_config 0 100)) = Ok [workshop] /\
  fst (get_active_reservations env_example "alice" []
         (fresh_world default_config 0 200)) = Ok [workshop] /\
  fst (get_active_reservations env_example "alice" []
         (fresh_world default_config 0 99)) = Ok [] /\
  fst (get_active_reservations env_example "alice" []
         (fresh_world default_config 0 201)) = Ok [].
Proof. vm_compute. repeat split. Qed.

(** C10: two account collections with the same elements give the same
    result. *)
Theorem accounts_as_set env username (accts1 accts2 : list string) w :
  (forall a, a ∈ accts1 <-> a ∈ accts2) ->
  get_active_reservations env username accts1 w
  = get_active_reservations env username accts2 w.
Proof.
  intros Hsame.
  assert ((list_to_set accts1 : gset string) = list_to_set accts2) as Heq.
  { apply set_eq. intros a. rewrite !elem_of_list_to_set. apply Hsame. }
  unfold get_active_reservations. rewrite Heq. reflexivity.
Qed.

(** ** Instances of the theorems on the sample environments *)

Lemma second_call_witness :
  call env_example GetCpus world0
    = (Ok (PyInts [4]), snd (call env_example GetCpus world0)) /\
  live_entry GetCpus world0 = false /\
  299 - monotonic world0 < ttl_of GetCpus world0 /\
  exists r2 w2,
    call env_example GetCpus (at_time 299 150 (snd (call env_example GetCpus world0)))
      = (Ok r2, w2) /\
    calls w2 = calls (snd (call env_example GetCpus world0)) /\
    (List.length (calls (snd (call env_example GetCpus world0)))
       <= List.length (calls world0) + 1)%nat /\
    (150 = wall_clock world0 -> r2 = PyInts [4]).
Proof.
  assert (call env_example GetCpus world0
          = (Ok (PyInts [4]), snd (call env_example GetCpus world0))) as Hrun
    by (vm_compute; reflexivity).
  split; [exact Hrun|]. split; [reflexivity|]. split; [reflexivity|].
  apply (second_call_served_from_cache env_example GetCpus world0 (PyInts [4]) _ 299 150);
    [vm_compute; discriminate|exact Hrun| | |].
  - vm_compute. discriminate.
  - intros _. reflexivity.
  - vm_compute. discriminate.
Defined.

Lemma views_sorted_distinct_witness :
  exists cs ms ps fs,
    fst (call env_gpu GetCpus world0) = Ok (PyInts cs) /\
    fst (call env_gpu GetMems world0) = Ok (PyInts ms) /\
    fst (call env_gpu GetPartitions world0) = Ok (PyStrs ps) /\
    fst (call env_gpu GetFeatures world0) = Ok (PyStrs fs) /\
    (Sorted Z.le cs /\ NoDup cs /\ forall x, x ∈ cs <-> x ∈ cpu info_gpu) /\
    (Sorted Z.le ms /\ NoDup ms /\ forall x, x ∈ ms <-> x ∈ mem info_gpu) /\
    (Sorted str_le ps /\ NoDup ps /\ forall x, x ∈ ps <-> x ∈ partitions_list info_gpu) /\
    (Sorted str_le fs /\ NoDup fs /\
     forall x, x ∈ fs <->
       exists feature_set, feature_set ∈ features info_gpu /\ x ∈ feature_set).
Proof.
  apply (views_sorted_distinct env_gpu world0 info_gpu). vm_compute. reflexivity.
Defined.

Lemma gres_sentinel_first_witness :
  exists rest,
    fst (call env_gpu GetGres world0) = Ok (PyStrs ("gpu:0" :: rest)) /\
    ("gpu:0" ∉ rest) /\
    Sorted str_le rest /\ NoDup rest /\
    forall x, x ∈ rest <-> x ∈ gres_list info_gpu /\ x <> "gpu:0".
Proof.
  apply (gres_sentinel_first env_gpu world0 info_gpu). vm_compute. reflexivity.
Defined.

Lemma mem_sizes_per_node_witness :
  Forall2 mem_entry [node_a; node_b] (mem info_example) /\
  Forall2 (fun n c => cpus n = Some c) [node_a; node_b] (cpu info_example).
Proof.
  apply (proj1 mem_sizes_per_node env_example world0
           {| nodes := Some [node_a; node_b] |} info_example);
    vm_compute; reflexivity.
Defined.

Lemma falsy_fields_skipped_witness :
  exists info,
    fst (get_node_info env_gpu world0) = Ok info /\
    gres_list info = omap gres_contribution [node_a; node_c; node_b] /\
    features info = list_to_set (omap feature_contribution [node_a; node_c; node_b]) /\
    (forall n, gres n = Some None \/ gres n = Some (Some "") -> gres_contribution n = None) /\
    (forall n, get_default (active_features n) [] = [] -> feature_contribution n = None).
Proof.
  apply (falsy_fields_skipped env_gpu world0 {| nodes := Some [node_a; node_c; node_b] |});
    [reflexivity|reflexivity|].
  repeat constructor; simpl; eauto.
Defined.

Lemma node_query_nonzero_exit_witness :
  (exists info,
     fst (get_node_info env_failing world0) = Ok info /\
     cpu info = [] /\ mem info = [] /\ gres_list info = [] /\
     partitions_list info = [] /\ features info = ∅) /\
  (exists r, fst (call env_failing IsOnline world0) = Ok r /\ truthy r = false) /\
  fst (call env_failing GetCpus world0) = Ok (PyInts []).
Proof. apply (node_query_nonzero_exit env_failing world0 1); reflexivity. Defined.

Lemma is_online_truth_witness :
  exists r,
    fst (call env_example IsOnline world0) = Ok r /\
    r = PyInts (if truthy_list (cpu info_example) then mem info_example
                else cpu info_example) /\
    (truthy r = true <-> cpu info_example <> [] /\ mem info_example <> []).
Proof.
  apply (is_online_truth env_example world0 info_example); vm_compute; reflexivity.
Defined.

Lemma get_accounts_lines_witness :
  (forall rc, sacctmgr_show_user env_failing "alice" (List.length (calls world0))
              = NonZeroExit rc ->
     fst (get_accounts env_failing "alice" world0) = Ok []) /\
  (forall out, sacctmgr_show_user env_failing "alice" (List.length (calls world0))
               = Returned out ->
     fst (get_accounts env_failing "alice" world0) = Ok (splitlines out)) /\
  (forall lines last, Forall no_linebreak lines -> no_linebreak last ->
     splitlines (unlines lines ++ last)
     = lines ++ (if decide (last = EmptyString) then [] else [last])).
Proof. apply (get_accounts_lines env_failing "alice" world0). reflexivity. Defined.

Lemma active_reservations_filter_witness :
  exists fetched,
    fst (get_reservations env_example world0) = Ok fetched /\
    [workshop] = List.filter (is_active "bob" (list_to_set ["teamA"]) (wall_clock world0))
                             fetched /\
    (forall r, r ∈ [workshop] <->
       r ∈ fetched /\
       StartTime r <= wall_clock world0 <= EndTime r /\
       ("bob" ∈ Users r \/ exists a, a ∈ ["teamA"] /\ a ∈ Accounts r)) /\
    sublist [workshop] fetched /\
    (forall doc,
       cache_get (monotonic world0) tt (res_cache (self world0)) = None ->
       scontrol_show_res env_example (List.length (calls world0)) = Returned doc ->
       Forall2 (fun raw r => convert_reservation (fromtimestamp env_example) raw
                             = Ok (Some r))
               (List.filter not_maint (get_default (reservations doc) [])) fetched).
Proof.
  apply (active_reservations_filter env_example "bob" ["teamA"] world0 [workshop]).
  vm_compute. reflexivity.
Defined.

Lemma accounts_as_set_witness :
  get_active_reservations env_example "bob" ["teamA"; "teamB"; "teamA"] world0
  = get_active_reservations env_example "bob" ["teamB"; "teamA"] world0.
Proof.
  apply (accounts_as_set env_example "bob" ["teamA"; "teamB"; "teamA"] ["teamB"; "teamA"]).
  intros a. rewrite !elem_of_cons. tauto.
Defined.

(** ** More on the node listing *)

Lemma add_node_missing output n key :
  first_missing_key n = Some key -> add_node output n = Raise (KeyError key).
Proof.
  unfold first_missing_key, add_node.
  destruct (cpus n), (real_memory n), (gres n); simpl; intros [= <-]; reflexivity.
Qed.

Lemma add_nodes_app good : forall output rest,
  add_nodes output (good ++ rest)
  = result_bind (add_nodes output good) (fun output' => add_nodes output' rest).
Proof.
  induction good as [|n good IH]; simpl; intros output rest; [reflexivity|].
  destruct (add_node output n) as [output'|e]; simpl; [apply IH|reflexivity].
Qed.

Lemma add_nodes_partitions ns : forall output info,
  add_nodes output ns = Ok info ->
  partitions_list info
  = partitions_list output ++ List.concat (List.map (fun n => get_default (partitions n) []) ns).
Proof.
  induction ns as [|n ns IH]; simpl; intros output info Hrun.
  - injection Hrun as <-. rewrite app_nil_r. reflexivity.
  - destruct (add_node output n) as [output'|e] eqn:Hn; [|discriminate]. simpl in Hrun.
    apply add_node_returns in Hn as (c & m & _ & _ & _ & _ & _ & _ & E4 & _).
    rewrite (IH _ _ Hrun), E4, <- app_assoc. reflexivity.
Qed.

(** X1: on a fetch, [get_node_info] returns iff every node of the listing has
    the keys [cpus], [real_memory] and [gres]; otherwise it raises [KeyError]
    for the first missing key (in that order) of the first node that lacks
    one. *)
Theorem node_listing_keys env w doc :
  cache_get (monotonic w) tt (info_cache (self w)) = None ->
  scontrol_show_node env (List.length (calls w)) = Returned doc ->
  ((exists info, fst (get_node_info env w) = Ok info)
   <-> Forall has_required_keys (get_default (nodes doc) [])) /\
  (forall good bad rest key,
     get_default (nodes doc) [] = good ++ bad :: rest ->
     Forall has_required_keys good ->
     first_missing_key bad = Some key ->
     fst (get_node_info env w) = Raise (KeyError key)).
Proof.
  intros Hmiss Hout. rewrite (get_node_info_fetch env w Hmiss), Hout.
  unfold parse_node_info. split.
  - split.
    + intros [info Hinfo].
      apply add_nodes_returns in Hinfo as (cs & ms & _ & _ & Hreq & _). exact Hreq.
    + apply add_nodes_total.
  - intros good bad rest key -> Hgood Hbad.
    rewrite add_nodes_app.
    destruct (add_nodes_total good empty_output Hgood) as [output ->]. simpl.
    rewrite (add_node_missing _ _ _ Hbad). reflexivity.
Qed.

Lemma forall2_elem_of {A B} (R : A -> B -> Prop) (l : list A) (k : list B) :
  (forall x y z, R x y -> R x z -> y = z) ->
  Forall2 R l k -> forall y, y ∈ k <-> exists x, x ∈ l /\ R x y.
Proof.
  intros Hfun. induction 1 as [|x y l k Hxy _ IH]; intros z.
  - split; [intros Hz; apply elem_of_nil in Hz; contradiction|].
    intros (x & Hx & _). apply elem_of_nil in Hx. contradiction.
  - rewrite elem_of_cons, IH. split.
    + intros [->|(x' & Hx' & HR)].
      * exists x. split; [apply elem_of_cons; auto|auto].
      * exists x'. split; [apply elem_of_cons; auto|auto].
    + intros (x' & Hx' & HR). apply elem_of_cons in Hx' as [->|Hx'].
      * left. eapply Hfun; eassumption.
      * right. eauto.
Qed.

Lemma elem_of_omap_list {A B} (f : A -> option B) (l : list A) (y : B) :
  y ∈ omap f l <-> exists x, x ∈ l /\ f x = Some y.
Proof. apply list_elem_of_omap. Qed.

Lemma mem_entry_functional n m m' : mem_entry n m -> mem_entry n m' -> m = m'.
Proof. intros (r & Hr & ->) (r' & Hr' & ->). congruence. Qed.

(** What the listing puts into the node information, field by field. *)
Lemma fetched_node_info env w doc info :
  cache_get (monotonic w) tt (info_cache (self w)) = None ->
  scontrol_show_node env (List.length (calls w)) = Returned doc ->
  fst (get_node_info env w) = Ok info ->
  let ns := get_default (nodes doc) [] in
  (forall x, x ∈ cpu info <-> exists n, n ∈ ns /\ cpus n = Some x) /\
  (forall x, x ∈ mem info <-> exists n, n ∈ ns /\ mem_entry n x) /\
  (forall x, x ∈ gres_list info <->
     exists n, n ∈ ns /\ gres n = Some (Some x) /\ x <> EmptyString) /\
  (forall x, x ∈ partitions_list info <->
     exists n l, n ∈ ns /\ partitions n = Some l /\ x ∈ l) /\
  (forall s, s ∈ features info <->
     exists n l, n ∈ ns /\ active_features n = Some l /\ l <> [] /\ s = list_to_set l) /\
  List.length (cpu info) = List.length ns /\
  List.length (mem info) = List.length ns.
Proof.
  intros Hmiss Hout Hinfo ns.
  rewrite (get_node_info_fetch env w Hmiss), Hout in Hinfo. unfold parse_node_info in Hinfo.
  fold ns in Hinfo.
  pose proof (add_nodes_partitions _ _ _ Hinfo) as Hp.
  apply add_nodes_returns in Hinfo as (cs & ms & Hcs & Hms & _ & Hc & Hm & Hg & Hf).
  simpl in Hc, Hm, Hg, Hp, Hf. rewrite (left_id_L ∅ (∪)) in Hf.
  rewrite Hc, Hm, Hg, Hp, Hf.
  split; [|split; [|split; [|split; [|split; [|split]]]]].
  - apply forall2_elem_of; [|exact Hcs]. intros n y z. congruence.
  - apply forall2_elem_of; [|exact Hms]. apply mem_entry_functional.
  - intros x. rewrite elem_of_omap_list. unfold gres_contribution. split.
    + intros (n & Hn & Hx). exists n. split; [exact Hn|].
      destruct (gres n) as [[[|c s]|]|]; try discriminate.
      injection Hx as <-. split; [reflexivity|discriminate].
    + intros (n & Hn & Hx & Hne). exists n. split; [exact Hn|]. rewrite Hx.
      destruct x; [congruence|reflexivity].
  - intros x. rewrite list_elem_of_In, in_concat. split.
    + intros (l & Hl & Hx). apply in_map_iff in Hl as (n & Hl & Hn).
      exists n. destruct (partitions n) as [l'|] eqn:E; simpl in Hl; subst l.
      * exists l'. rewrite !list_elem_of_In. auto.
      * destruct Hx.
    + intros (n & l & Hn & Hl & Hx). exists l. split; [|apply list_elem_of_In; exact Hx].
      apply in_map_iff. exists n. rewrite Hl. split; [reflexivity|].
      apply list_elem_of_In. exact Hn.
  - intros s. rewrite elem_of_list_to_set, elem_of_omap_list. unfold feature_contribution.
    split.
    + intros (n & Hn & Hs). exists n. destruct (active_features n) as [[|f fs]|]; try discriminate.
      injection Hs as <-. exists (f :: fs). repeat split; auto; discriminate.
    + intros (n & l & Hn & Hl & Hne & ->). exists n. split; [exact Hn|]. rewrite Hl.
      destruct l; [congruence|reflexivity].
  - symmetry. exact (Forall2_length _ _ _ Hcs).
  - symmetry. exact (Forall2_length _ _ _ Hms).
Qed.

Lemma fetched_listing_returns env w doc :
  cache_get (monotonic w) tt (info_cache (self w)) = None ->
  scontrol_show_node env (List.length (calls w)) = Returned doc ->
  Forall has_required_keys (get_default (nodes doc) []) ->
  exists info w', get_node_info env w = (Ok info, w').
Proof.
  intros Hmiss Hout Hreq.
  destruct (add_nodes_total _ empty_output Hreq) as [info Hinfo].
  assert (fst (get_node_info env w) = Ok info) as Hfst.
  { rewrite (get_node_info_fetch env w Hmiss), Hout. exact Hinfo. }
  apply get_node_info_pair in Hfst as [w' Hrun]. eauto.
Qed.

(** X2: on a fetch of a listing whose nodes have the required keys, the five
    views return, and they hold exactly: the cpu counts of the nodes; their
    real memory minus specialized memory; [gpu:0] and the non-empty [gres]
    strings; the partition names of the nodes; the active feature names of
    the nodes. *)
Theorem views_from_listing env w doc :
  cache_get (monotonic w) tt (info_cache (self w)) = None ->
  scontrol_show_node env (List.length (calls w)) = Returned doc ->
  Forall has_required_keys (get_default (nodes doc) []) ->
  let ns := get_default (nodes doc) [] in
  exists cs ms gs ps fs,
    fst (call env GetCpus w) = Ok (PyInts cs) /\
    fst (call env GetMems w) = Ok (PyInts ms) /\
    fst (call env GetGres w) = Ok (PyStrs gs) /\
    fst (call env GetPartitions w) = Ok (PyStrs ps) /\
    fst (call env GetFeatures w) = Ok (PyStrs fs) /\
    (forall x, x ∈ cs <-> exists n, n ∈ ns /\ cpus n = Some x) /\
    (forall x, x ∈ ms <-> exists n, n ∈ ns /\ mem_entry n x) /\
    (forall x, x ∈ gs <->
       x = "gpu:0" \/ exists n, n ∈ ns /\ gres n = Some (Some x) /\ x <> EmptyString) /\
    (forall x, x ∈ ps <-> exists n l, n ∈ ns /\ partitions n = Some l /\ x ∈ l) /\
    (forall x, x ∈ fs <-> exists n l, n ∈ ns /\ active_features n = Some l /\ x ∈ l).
Proof.
  intros Hmiss Hout Hreq ns.
  destruct (fetched_listing_returns env w doc Hmiss Hout Hreq) as (info & w' & Hrun).
  assert (fst (get_node_info env w) = Ok info) as Hfst by (rewrite Hrun; reflexivity).
  destruct (fetched_node_info env w doc info Hmiss Hout Hfst)
    as (Hc & Hm & Hg & Hp & Hf & _).
  fold ns in Hc, Hm, Hg, Hp, Hf.
  destruct (call_projection _ _ _ _ Hrun) as (Ec & Em & Eg & Ep & Ef).
  do 5 eexists. rewrite Ec, Em, Eg, Ep, Ef. simpl.
  do 5 (split; [reflexivity|]).
  split; [|split; [|split; [|split]]].
  - intros x. rewrite <- Hc. apply sorted_int_set.
  - intros x. rewrite <- Hm. apply sorted_int_set.
  - intros x. rewrite elem_of_cons, <- Hg.
    destruct (sorted_str_elements
                ((list_to_set (gres_list info) : gset string) ∖ list_to_set ["gpu:0"]))
      as (_ & _ & E).
    rewrite E, elem_of_difference, !elem_of_list_to_set, list_elem_of_singleton.
    destruct (decide (x = "gpu:0")); tauto.
  - intros x. rewrite <- Hp.
    destruct (sorted_str_elements (list_to_set (partitions_list info))) as (_ & _ & E).
    rewrite E, elem_of_list_to_set. reflexivity.
  - intros x.
    destruct (sorted_str_elements
                (set_bind (fun feature_set : gset string => feature_set) (features info)))
      as (_ & _ & E).
    rewrite E, elem_of_set_bind. split.
    + intros (s & Hs & Hx). apply Hf in Hs as (n & l & Hn & Hl & _ & ->).
      apply elem_of_list_to_set in Hx. eauto.
    + intros (n & l & Hn & Hl & Hx). exists (list_to_set l). split.
      * apply Hf. exists n, l. repeat split; auto. intros ->.
        apply elem_of_nil in Hx. exact Hx.
      * apply elem_of_list_to_set. exact Hx.
Qed.

Lemma is_online_run env w info w1 :
  0 < ttl (info_cache (self w)) ->
  get_node_info env w = (Ok info, w1) ->
  exists w2,
    is_online env w
    = (Ok (if truthy_list (cpu info) then mem info else cpu info), w2).
Proof.
  intros Httl Hrun. unfold is_online, bind. rewrite Hrun.
  destruct (truthy_list (cpu info)); [|eexists; reflexivity].
  apply get_node_info_returns in Hrun as S1.
  assert (cache_get (monotonic w1) tt (info_cache (self w1)) = Some info) as Hget.
  { destruct S1 as [-> _ _ [(_ & Hget & ->)|(_ & _ & ->)]]; [exact Hget|].
    rewrite Z.sub_diag. destruct (Z.ltb_spec 0 (ttl (info_cache (self w)))); [reflexivity|lia]. }
  destruct (get_node_info_hit env w1 info Hget) as (w2 & -> & _). eexists. reflexivity.
Qed.

(** X3: on a fetch of a listing whose nodes have the required keys, with a
    positive TTL, [is_online] returns a true value iff the listing has at
    least one node, and the value is then the list of the nodes' memory
    sizes in the order of the listing. *)
Theorem online_iff_listing_nonempty env w doc :
  cache_get (monotonic w) tt (info_cache (self w)) = None ->
  scontrol_show_node env (List.length (calls w)) = Returned doc ->
  Forall has_required_keys (get_default (nodes doc) []) ->
  0 < ttl (info_cache (self w)) ->
  exists l,
    fst (call env IsOnline w) = Ok (PyInts l) /\
    (truthy (PyInts l) = true <-> get_default (nodes doc) [] <> []) /\
    (truthy (PyInts l) = true ->
     Forall2 mem_entry (get_default (nodes doc) []) l).
Proof.
  intros Hmiss Hout Hreq Httl.
  destruct (fetched_listing_returns env w doc Hmiss Hout Hreq) as (info & w' & Hrun).
  assert (fst (get_node_info env w) = Ok info) as Hfst by (rewrite Hrun; reflexivity).
  destruct (fetched_node_info env w doc info Hmiss Hout Hfst)
    as (_ & _ & _ & _ & _ & Hlc & Hlm).
  destruct (is_online_run env w info w' Httl Hrun) as (w2 & Hon).
  rewrite (get_node_info_fetch env w Hmiss), Hout in Hfst.
  apply add_nodes_returns in Hfst as (cs & ms & _ & Hms & _ & _ & Hm & _).
  simpl in Hm. subst ms.
  eexists. split; [|split].
  - unfold call, returning, bind. rewrite Hon. reflexivity.
  - simpl. destruct (get_default (nodes doc) []) as [|n ns], (cpu info) as [|c cs'],
      (mem info) as [|m ms']; simpl in *; try discriminate; split; congruence.
  - simpl. destruct (cpu info) as [|c cs']; simpl; [discriminate|]. intros _. exact Hms.
Qed.


(** ** More on the reservations *)

Lemma convert_reservation_returns ft raw :
  convertible ft raw <-> exists r, convert_reservation ft raw = Ok r.
Proof.
  unfold convertible, has_usable_keys, convert_reservation. split.
  - intros (fl & -> & [Hm|(Hn & Hu & Ha & (st & sn & start & -> & Hsn & Hstart)
                           & (et & en & finish & -> & Hen & Hfinish))]); simpl.
    + rewrite Hm. eauto.
    + destruct (is_maint fl); [eauto|].
      destruct Hn as [nm ->], Hu as [us ->], Ha as [acs ->]. simpl.
      rewrite Hsn. simpl. rewrite Hstart. simpl. rewrite Hen. simpl. rewrite Hfinish.
      simpl. eauto.
  - destruct (flags raw) as [fl|]; simpl; [|intros [r Hr]; discriminate].
    intros [r Hr]. exists fl. split; [reflexivity|].
    destruct (is_maint fl); [left; reflexivity|right].
    destruct (name raw); simpl in Hr; [|discriminate].
    destruct (users raw); simpl in Hr; [|discriminate].
    destruct (accounts raw); simpl in Hr; [|discriminate].
    destruct (start_time raw) as [st|]; simpl in Hr; [|discriminate].
    destruct (number st) as [sn|] eqn:Est; simpl in Hr; [|discriminate].
    destruct (ft sn) as [start|] eqn:Estart; simpl in Hr; [|discriminate].
    destruct (end_time raw) as [et|]; simpl in Hr; [|discriminate].
    destruct (number et) as [en|] eqn:Eet; simpl in Hr; [|discriminate].
    destruct (ft en) as [finish|] eqn:Efinish; simpl in Hr; [|discriminate].
    split; [eauto|]. split; [eauto|]. split; [eauto|]. split.
    + exists st, sn, start. auto.
    + exists et, en, finish. auto.
Qed.

Lemma filter_reservations_total ft rs : forall acc,
  Forall (convertible ft) rs <-> exists out, filter_reservations ft acc rs = Ok out.
Proof.
  induction rs as [|raw rs IH]; simpl; intros acc.
  - split; [eauto|constructor].
  - rewrite Forall_cons, (convert_reservation_returns ft). split.
    + intros [[[r|] ->] Hrs]; simpl; apply IH; exact Hrs.
    + intros [out Hout].
      destruct (convert_reservation ft raw) as [[r|]|e]; simpl in Hout; [| |discriminate].
      * split; [eauto|]. apply (IH (acc ++ [r])). eauto.
      * split; [eauto|]. apply (IH acc). eauto.
Qed.

(** X5: on a fetch, [get_reservations] returns iff every reservation of the
    listing has its [flags] and is either flagged [MAINT] or has all the other
    keys, with start and end numbers that [datetime.fromtimestamp] accepts: a
    [MAINT] reservation is skipped before anything else of it is read.  The
    result has one reservation per reservation not flagged [MAINT]. *)
Theorem reservation_listing_keys env w doc :
  cache_get (monotonic w) tt (res_cache (self w)) = None ->
  scontrol_show_res env (List.length (calls w)) = Returned doc ->
  ((exists fetched, fst (get_reservations env w) = Ok fetched)
   <-> Forall (convertible (fromtimestamp env)) (get_default (reservations doc) [])) /\
  (forall fetched, fst (get_reservations env w) = Ok fetched ->
     List.length fetched
     = List.length (List.filter not_maint (get_default (reservations doc) []))).
Proof.
  intros Hmiss Hout. rewrite (get_reservations_fetch env w Hmiss), Hout. split.
  - symmetry. apply filter_reservations_total.
  - intros fetched Hrun.
    apply filter_reservations_returns in Hrun as (new & -> & Hnew).
    symmetry. exact (Forall2_length _ _ _ Hnew).
Qed.

(** X6: on a fetch, when the reservation command exits with a non-zero
    status, [get_reservations] and [get_active_reservations] return the empty
    list; when it cannot be started, both raise [FileNotFoundError]. *)
Theorem reservation_query_failure env w username accts :
  cache_get (monotonic w) tt (res_cache (self w)) = None ->
  (forall rc, scontrol_show_res env (List.length (calls w)) = NonZeroExit rc ->
     fst (get_reservations env w) = Ok [] /\
     fst (get_active_reservations env username accts w) = Ok []) /\
  (scontrol_show_res env (List.length (calls w)) = NotLaunched ->
     fst (get_reservations env w) = Raise FileNotFoundError /\
     fst (get_active_reservations env username accts w) = Raise FileNotFoundError).
Proof.
  intros Hmiss. pose proof (get_reservations_fetch env w Hmiss) as Hfetch.
  split.
  - intros rc Hout. rewrite Hout in Hfetch. split; [exact Hfetch|].
    rewrite get_active_reservations_run, Hfetch. reflexivity.
  - intros Hout. rewrite Hout in Hfetch. split; [exact Hfetch|].
    rewrite get_active_reservations_run, Hfetch. reflexivity.
Qed.

Lemma sublist_filter_impl {A} (P Q : A -> bool) (l : list A) :
  (forall x, P x = true -> Q x = true) -> sublist (List.filter P l) (List.filter Q l).
Proof.
  intros Himpl. induction l as [|x l IH]; simpl; [constructor|].
  destruct (P x) eqn:HP.
  - rewrite (Himpl x HP). apply sublist_skip, IH.
  - destruct (Q x); [apply sublist_cons|]; exact IH.
Qed.

(** X7: passing more accounts never hides a reservation: if every account
    of the first collection is in the second, the result for the first is a
    sublist of the result for the second. *)
Theorem more_accounts_more_reservations env w username accts accts' out :
  (forall a, a ∈ accts -> a ∈ accts') ->
  fst (get_active_reservations env username accts w) = Ok out ->
  exists out',
    fst (get_active_reservations env username accts' w) = Ok out' /\
    sublist out out'.
Proof.
  intros Hsub. rewrite !get_active_reservations_run.
  destruct (fst (get_reservations env w)) as [fetched|e]; [|discriminate].
  intros [= <-]. eexists. split; [reflexivity|].
  apply sublist_filter_impl. intros r. rewrite !is_active_spec.
  intros (Hwin & [Hu|(a & Ha & Hr)]); split; auto. right. exists a. auto.
Qed.

(** ** [split] and [join] *)

Lemma split_not_nil sep s : split sep s <> [].
Proof.
  destruct s as [|c s]; simpl; [discriminate|].
  destruct (Ascii.eqb c sep); [discriminate|]. destruct (split sep s); discriminate.
Qed.

Lemma join_cons sep piece pieces :
  pieces <> [] ->
  join sep (piece :: pieces) = (piece ++ String sep (join sep pieces))%string.
Proof. destruct pieces; [congruence|reflexivity]. Qed.

Lemma join_split sep s : join sep (split sep s) = s.
Proof.
  induction s as [|c s IH]; [reflexivity|]. simpl.
  destruct (Ascii.eqb_spec c sep) as [->|Hne].
  - rewrite join_cons by apply split_not_nil. rewrite IH. reflexivity.
  - pose proof (split_not_nil sep s) as Hnil.
    destruct (split sep s) as [|piece pieces]; [congruence|].
    destruct pieces as [|piece' pieces].
    + simpl in IH |- *. rewrite IH. reflexivity.
    + rewrite join_cons in IH |- * by discriminate.
      change (String c (piece ++ String sep (join sep (piece' :: pieces))) = String c s)%string.
      rewrite IH. reflexivity.
Qed.

Lemma split_free sep s : Forall (free_of sep) (split sep s).
Proof.
  unfold free_of. induction s as [|c s IH]; simpl.
  - repeat constructor.
  - destruct (Ascii.eqb_spec c sep) as [->|Hne].
    + constructor; [constructor|exact IH].
    + destruct (split sep s) as [|piece pieces]; [repeat constructor; exact Hne|].
      apply Forall_cons in IH as [Hp Hps]. constructor; [|exact Hps].
      simpl. constructor; assumption.
Qed.

Lemma split_free_piece sep piece :
  free_of sep piece -> split sep piece = [piece].
Proof.
  unfold free_of. induction piece as [|c piece IH]; simpl; intros Hfree; [reflexivity|].
  apply Forall_cons in Hfree as [Hc Hfree].
  destruct (Ascii.eqb_spec c sep) as [->|_]; [congruence|].
  rewrite IH by exact Hfree. reflexivity.
Qed.

Lemma split_piece_sep sep piece rest :
  free_of sep piece ->
  split sep (piece ++ String sep rest) = piece :: split sep rest.
Proof.
  unfold free_of. induction piece as [|c piece IH]; intros Hfree.
  - change (split sep (String sep rest) = EmptyString :: split sep rest). simpl.
    rewrite Ascii.eqb_refl. reflexivity.
  - apply Forall_cons in Hfree as [Hc Hfree].
    change (split sep (String c (piece ++ String sep rest))
            = String c piece :: split sep rest)%string.
    simpl. destruct (Ascii.eqb_spec c sep) as [->|_]; [congruence|].
    rewrite IH by exact Hfree. reflexivity.
Qed.

Lemma split_join sep pieces :
  pieces <> [] -> Forall (free_of sep) pieces -> split sep (join sep pieces) = pieces.
Proof.
  induction pieces as [|piece pieces IH]; [congruence|]. intros _ Hfree.
  apply Forall_cons in Hfree as [Hp Hps].
  destruct pieces as [|piece' pieces].
  - apply split_free_piece, Hp.
  - rewrite join_cons by discriminate. rewrite split_piece_sep by exact Hp.
    rewrite IH by (auto; discriminate). reflexivity.
Qed.

(** X8: in a converted reservation, [Users] and [Accounts] hold exactly the
    names written between the commas of the [users] and [accounts] strings:
    cutting at the commas and joining again gives the string back, no piece
    holds a comma, and a string that joins comma-free names gives the set of
    these names (the empty string gives the set of the empty name). *)
Theorem reservation_users_and_accounts ft raw r :
  convert_reservation ft raw = Ok (Some r) ->
  (forall us accs, users raw = Some us -> accounts raw = Some accs ->
     join comma (split comma us) = us /\ join comma (split comma accs) = accs /\
     Forall (free_of comma) (split comma us) /\
     Forall (free_of comma) (split comma accs)) /\
  (forall names, names <> [] -> Forall (free_of comma) names ->
     users raw = Some (join comma names) -> forall u, u ∈ Users r <-> u ∈ names) /\
  (forall names, names <> [] -> Forall (free_of comma) names ->
     accounts raw = Some (join comma names) -> forall a, a ∈ Accounts r <-> a ∈ names).
Proof.
  unfold convert_reservation. intros Hconv.
  destruct (flags raw) as [fl|]; simpl in Hconv; [|discriminate].
  destruct (is_maint fl); [discriminate|].
  destruct (name raw); simpl in Hconv; [|discriminate].
  destruct (users raw) as [us|]; simpl in Hconv; [|discriminate].
  destruct (accounts raw) as [accs|]; simpl in Hconv; [|discriminate].
  destruct (start_time raw) as [[[sn|]]|]; simpl in Hconv; try discriminate.
  destruct (ft sn) as [start|]; simpl in Hconv; [|discriminate].
  destruct (end_time raw) as [[[en|]]|]; simpl in Hconv; try discriminate.
  destruct (ft en) as [finish|]; simpl in Hconv; [|discriminate].
  injection Hconv as <-. simpl. split; [|split].
  - intros us' accs' [= <-] [= <-].
    auto using join_split, split_free.
  - intros names Hne Hfree [= ->] u.
    rewrite elem_of_list_to_set, split_join by assumption. reflexivity.
  - intros names Hne Hfree [= ->] a.
    rewrite elem_of_list_to_set, split_join by assumption. reflexivity.
Qed.

(** ** More on [splitlines] *)

Lemma splitlines_clean_upto n : forall s,
  (String.length s <= n)%nat ->
  Forall no_linebreak (splitlines s) /\ (splitlines s = [] <-> s = EmptyString).
Proof.
  induction n as [|n IH]; intros s Hlen.
  - destruct s; simpl in *; [|lia]. split; [constructor|tauto].
  - destruct s as [|c s]; [split; [constructor|tauto]|]. simpl in Hlen.
    assert (Forall no_linebreak (splitlines s)) as Hs by (apply IH; lia).
    split; [|split; [|discriminate]]; simpl.
    + destruct (is_linebreak c) eqn:Hc.
      * constructor; [constructor|].
        destruct (Ascii.eqb c CR); [|exact Hs].
        destruct s as [|c' s']; [exact Hs|].
        destruct (Ascii.eqb c' LF); [|exact Hs]. apply IH. simpl in Hlen. lia.
      * destruct (splitlines s) as [|line lines].
        -- repeat constructor. exact Hc.
        -- apply Forall_cons in Hs as [Hline Hlines].
           constructor; [|exact Hlines]. constructor; assumption.
    + destruct (is_linebreak c); [discriminate|].
      destruct (splitlines s); discriminate.
Qed.

(** X9: on a fetch that succeeds, no account name returned by [get_accounts]
    contains a line boundary, and the list is empty iff the command printed
    nothing. *)
Theorem account_names_are_lines env username w out :
  cache_get (monotonic w) username (acct_cache (self w)) = None ->
  sacctmgr_show_user env username (List.length (calls w)) = Returned out ->
  exists names,
    fst (get_accounts env username w) = Ok names /\
    Forall no_linebreak names /\
    (names = [] <-> out = EmptyString).
Proof.
  intros Hmiss Hout. exists (splitlines out).
  rewrite (get_accounts_fetch env username w Hmiss), Hout.
  split; [reflexivity|]. apply (splitlines_clean_upto (String.length out)). lia.
Qed.

(** ** What a call does to the world *)

Section MemoRaise.
Context {K V : Type} `{EqDecision K}.
Variable cache : SlurmAPI -> TTLCache K V.
Variable set_cache : TTLCache K V -> SlurmAPI -> SlurmAPI.
Variable k : K.
Variable cmd : command.
Variable method : M V.
Hypothesis method_logged : forall w, snd (method w) = logged cmd w.

Lemma cachedmethod_raises w e w' :
  cachedmethod cache set_cache k method w = (Raise e, w') ->
  cache_get (monotonic w) k (cache (self w)) = None /\ w' = logged cmd w.
Proof.
  unfold cachedmethod.
  destruct (cache_get (monotonic w) k (cache (self w))) as [v|]; [discriminate|].
  pose proof (method_logged w) as Hlog.
  destruct (method w) as [[v|e'] w1]; simpl in Hlog; subst w1; [discriminate|].
  intros [= _ <-]. auto.
Qed.
End MemoRaise.

Lemma get_node_info_raises env w e w' :
  get_node_info env w = (Raise e, w') ->
  cache_get (monotonic w) tt (info_cache (self w)) = None /\ w' = logged ScontrolShowNode w.
Proof. apply cachedmethod_raises, get_node_info_body_logged. Qed.

Lemma get_accounts_raises env username w e w' :
  get_accounts env username w = (Raise e, w') ->
  cache_get (monotonic w) username (acct_cache (self w)) = None /\
  w' = logged (SacctmgrShowUser username) w.
Proof. apply cachedmethod_raises, get_accounts_body_logged. Qed.

Lemma get_reservations_raises env w e w' :
  get_reservations env w = (Raise e, w') ->
  cache_get (monotonic w) tt (res_cache (self w)) = None /\ w' = logged ScontrolShowRes w.
Proof. apply cachedmethod_raises, get_reservations_body_logged. Qed.

Lemma read_effect_refl v w : read_effect v w w 0.
Proof.
  split; try reflexivity; [destruct v; simpl; auto|]. simpl. rewrite app_nil_r. reflexivity.
Qed.

Lemma read_effect_trans v w1 w2 w3 n m :
  read_effect v w1 w2 n -> read_effect v w2 w3 m -> read_effect v w1 w3 (n + m).
Proof.
  intros [M1 W1 O1 C1] [M2 W2 O2 C2]. split.
  - congruence.
  - congruence.
  - destruct v; simpl in *; destruct O1, O2; split; congruence.
  - rewrite C2, C1, <- app_assoc, replicate_add. reflexivity.
Qed.

Lemma get_node_info_effect env v w r w' :
  command_of v = ScontrolShowNode ->
  get_node_info env w = (r, w') ->
  read_effect v w w' (misses (live_entry v w)).
Proof.
  intros Hv. unfold get_node_info, cachedmethod.
  assert (live_entry v w
          = bool_decide (is_Some (cache_get (monotonic w) tt (info_cache (self w))))) as ->
    by (destruct v; try discriminate Hv; reflexivity).
  assert (forall s c, other_caches_kept v w (with_self (set_info_cache c s) w) <->
                      acct_cache s = acct_cache (self w) /\ res_cache s = res_cache (self w))
    as Hkept by (intros s c; destruct v; try discriminate Hv; reflexivity).
  destruct (cache_get (monotonic w) tt (info_cache (self w))) as [v0|].
  - intros [= <- <-]. rewrite bool_decide_eq_true_2 by eauto.
    split; simpl; try reflexivity; [apply Hkept; auto|].
    rewrite app_nil_r. reflexivity.
  - rewrite bool_decide_eq_false_2 by (intros [x Hx]; discriminate).
    pose proof (get_node_info_body_logged env w) as Hlog.
    destruct (get_node_info_body env w) as [[v0|e] w1]; simpl in Hlog; subst w1;
      intros [= <- <-]; split; simpl; rewrite ?Hv; try reflexivity.
    + apply (Hkept (self w)). auto.
    + destruct v; try discriminate Hv; simpl; auto.
Qed.

Lemma get_accounts_effect env username w r w' :
  get_accounts env username w = (r, w') ->
  read_effect (GetAccounts username) w w' (misses (live_entry (GetAccounts username) w)).
Proof.
  unfold get_accounts, cachedmethod, live_entry.
  destruct (cache_get (monotonic w) username (acct_cache (self w))) as [v0|].
  - intros [= <- <-]. rewrite bool_decide_eq_true_2 by eauto.
    split; simpl; auto. rewrite app_nil_r. reflexivity.
  - rewrite bool_decide_eq_false_2 by (intros [x Hx]; discriminate).
    pose proof (get_accounts_body_logged env username w) as Hlog.
    destruct (get_accounts_body env username w) as [[v0|e] w1]; simpl in Hlog; subst w1;
      intros [= <- <-]; split; simpl; auto.
Qed.

Lemma get_reservations_effect env username accts w r w' :
  get_reservations env w = (r, w') ->
  read_effect (GetActiveReservations username accts) w w'
    (misses (live_entry (GetActiveReservations username accts) w)).
Proof.
  unfold get_reservations, cachedmethod, live_entry.
  destruct (cache_get (monotonic w) tt (res_cache (self w))) as [v0|].
  - intros [= <- <-]. rewrite bool_decide_eq_true_2 by eauto.
    split; simpl; auto. rewrite app_nil_r. reflexivity.
  - rewrite bool_decide_eq_false_2 by (intros [x Hx]; discriminate).
    pose proof (get_reservations_body_logged env w) as Hlog.
    destruct (get_reservations_body env w) as [[v0|e] w1]; simpl in Hlog; subst w1;
      intros [= <- <-]; split; simpl; auto.
Qed.

(** With a positive TTL, the entry is live right after a read that returned. *)
Lemma memo_step_live {K V} `{EqDecision K} (cache : SlurmAPI -> TTLCache K V)
    k cmd w v w' :
  memo_step cache k cmd w v w' ->
  0 < ttl (cache (self w)) ->
  is_Some (cache_get (monotonic w') k (cache (self w'))).
Proof.
  intros [-> _ _ [(_ & Hget & ->)|(_ & _ & ->)]] Httl; [eauto|].
  rewrite Z.sub_diag. destruct (Z.ltb_spec 0 (ttl (cache (self w)))); [eauto|lia].
Qed.

(** The commands a call runs, the clocks and the other caches. *)
Lemma call_effect env v w r w' :
  call env v w = (r, w') ->
  exists n,
    (n <= 2)%nat /\ read_effect v w w' n /\
    (0 < ttl_of v w -> n = misses (live_entry v w)).
Proof.
  assert (forall b, (misses b <= 2)%nat) as Hle by (intros []; simpl; lia).
  destruct v as [| | | | | |username|username accts]; simpl; unfold returning, bind.
  - unfold is_online, bind.
    destruct (get_node_info env w) as [[info|e] w1] eqn:H1.
    + pose proof (get_node_info_effect env IsOnline w _ _ eq_refl H1) as E1.
      apply get_node_info_returns in H1 as S1.
      destruct (truthy_list (cpu info)).
      * destruct (get_node_info env w1) as [r2 w2] eqn:H2.
        pose proof (get_node_info_effect env IsOnline w1 _ _ eq_refl H2) as E2.
        assert (exists n, (n <= 2)%nat /\ read_effect IsOnline w w2 n /\
                  (0 < ttl (info_cache (self w)) -> n = misses (live_entry IsOnline w)))
          as Hgoal.
        { eexists. split; [|split; [exact (read_effect_trans _ _ _ _ _ _ E1 E2)|]].
          - destruct (live_entry IsOnline w), (live_entry IsOnline w1); simpl; lia.
          - intros Httl. pose proof (memo_step_live _ _ _ _ _ _ S1 Httl) as Hlive.
            unfold live_entry at 2. rewrite bool_decide_eq_true_2 by exact Hlive.
            simpl. lia. }
        destruct r2; simpl; unfold ret; intros [= _ <-]; exact Hgoal.
      * unfold ret. intros [= _ <-]. eexists. split; [apply Hle|]. split; [exact E1|auto].
    + pose proof (get_node_info_effect env IsOnline w _ _ eq_refl H1) as E1.
      intros [= _ <-]. eexists. split; [apply Hle|]. split; [exact E1|auto].
  - unfold get_cpus, bind. destruct (get_node_info env w) as [[info|e] w1] eqn:H1;
      pose proof (get_node_info_effect env GetCpus w _ _ eq_refl H1) as E1;
      intros [= _ <-]; eexists; (split; [apply Hle|]); split; [exact E1|auto|exact E1|auto].
  - unfold get_mems, bind. destruct (get_node_info env w) as [[info|e] w1] eqn:H1;
      pose proof (get_node_info_effect env GetMems w _ _ eq_refl H1) as E1;
      intros [= _ <-]; eexists; (split; [apply Hle|]); split; [exact E1|auto|exact E1|auto].
  - unfold get_gres, bind. destruct (get_node_info env w) as [[info|e] w1] eqn:H1;
      pose proof (get_node_info_effect env GetGres w _ _ eq_refl H1) as E1;
      intros [= _ <-]; eexists; (split; [apply Hle|]); split; [exact E1|auto|exact E1|auto].
  - unfold get_partitions, bind. destruct (get_node_info env w) as [[info|e] w1] eqn:H1;
      pose proof (get_node_info_effect env GetPartitions w _ _ eq_refl H1) as E1;
      intros [= _ <-]; eexists; (split; [apply Hle|]); split; [exact E1|auto|exact E1|auto].
  - unfold get_features, bind. destruct (get_node_info env w) as [[info|e] w1] eqn:H1;
      pose proof (get_node_info_effect env GetFeatures w _ _ eq_refl H1) as E1;
      intros [= _ <-]; eexists; (split; [apply Hle|]); split; [exact E1|auto|exact E1|auto].
  - destruct (get_accounts env username w) as [[names|e] w1] eqn:H1;
      pose proof (get_accounts_effect env username w _ _ H1) as E1;
      intros [= _ <-]; eexists; (split; [apply Hle|]); split; [exact E1|auto|exact E1|auto].
  - unfold get_active_reservations, bind.
    destruct (get_reservations env w) as [[fetched|e] w1] eqn:H1;
      pose proof (get_reservations_effect env username accts w _ _ H1) as E1.
    + destruct (negb (truthy_list fetched)); unfold ret, datetime_now; simpl;
        intros [= _ <-]; eexists; (split; [apply Hle|]); split; [exact E1|auto|exact E1|auto].
    + intros [= _ <-]. eexists. split; [apply Hle|]. split; [exact E1|auto].
Qed.

(** X10: whatever it returns or raises, a call of a public method leaves the
    two clocks and the two caches it does not use unchanged, and extends the
    log of commands by at most two runs of its own command. *)
Theorem call_frame env v w :
  let w' := snd (call env v w) in
  monotonic w' = monotonic w /\
  wall_clock w' = wall_clock w /\
  other_caches_kept v w w' /\
  exists n, (n <= 2)%nat /\ calls w' = calls w ++ replicate n (command_of v).
Proof.
  destruct (call env v w) as [r w'] eqn:Hrun. simpl.
  destruct (call_effect env v w r w' Hrun) as (n & Hn & [Hm Hw Ho Hc] & _).
  split; [exact Hm|]. split; [exact Hw|]. split; [exact Ho|]. eauto.
Qed.

(** X11: with a positive TTL, a call of a public method runs its command
    exactly once when the cache holds no live entry for it, and not at all when
    it does, whether the call returns or raises. *)
Theorem call_runs_command_on_miss env v w :
  0 < ttl_of v w ->
  calls (snd (call env v w))
  = calls w ++ (if live_entry v w then [] else [command_of v]).
Proof.
  intros Httl. destruct (call env v w) as [r w'] eqn:Hrun. simpl.
  destruct (call_effect env v w r w' Hrun) as (n & _ & [_ _ _ Hc] & Hn).
  rewrite Hc, (Hn Httl). destruct (live_entry v w); reflexivity.
Qed.

Lemma call_raises env v w e w' :
  call env v w = (Raise e, w') ->
  0 < ttl_of v w ->
  live_entry v w = false /\ w' = logged (command_of v) w.
Proof.
  assert (forall V (o : option V), o = None -> bool_decide (is_Some o) = false) as Hnone.
  { intros V o ->. apply bool_decide_eq_false_2. intros [x Hx]. discriminate. }
  destruct v as [| | | | | |username|username accts]; simpl; unfold returning, bind.
  - unfold is_online, bind.
    destruct (get_node_info env w) as [[info|e1] w1] eqn:H1.
    + apply get_node_info_returns in H1 as S1.
      destruct (truthy_list (cpu info)); [|discriminate].
      destruct (get_node_info env w1) as [[info2|e2] w2] eqn:H2; [discriminate|].
      intros _ Httl. exfalso.
      apply get_node_info_raises in H2 as [Hmiss _].
      destruct (memo_step_live _ _ _ _ _ _ S1 Httl) as [x Hx]. congruence.
    + intros [= _ <-] _. apply get_node_info_raises in H1 as [Hmiss ->]. auto.
  - unfold get_cpus, bind. destruct (get_node_info env w) as [[info|e1] w1] eqn:H1;
      [discriminate|]. intros [= _ <-] _.
    apply get_node_info_raises in H1 as [Hmiss ->]. auto.
  - unfold get_mems, bind. destruct (get_node_info env w) as [[info|e1] w1] eqn:H1;
      [discriminate|]. intros [= _ <-] _.
    apply get_node_info_raises in H1 as [Hmiss ->]. auto.
  - unfold get_gres, bind. destruct (get_node_info env w) as [[info|e1] w1] eqn:H1;
      [discriminate|]. intros [= _ <-] _.
    apply get_node_info_raises in H1 as [Hmiss ->]. auto.
  - unfold get_partitions, bind. destruct (get_node_info env w) as [[info|e1] w1] eqn:H1;
      [discriminate|]. intros [= _ <-] _.
    apply get_node_info_raises in H1 as [Hmiss ->]. auto.
  - unfold get_features, bind. destruct (get_node_info env w) as [[info|e1] w1] eqn:H1;
      [discriminate|]. intros [= _ <-] _.
    apply get_node_info_raises in H1 as [Hmiss ->]. auto.
  - destruct (get_accounts env username w) as [[names|e1] w1] eqn:H1; [discriminate|].
    intros [= _ <-] _. apply get_accounts_raises in H1 as [Hmiss ->]. auto.
  - unfold get_active_reservations, bind.
    destruct (get_reservations env w) as [[fetched|e1] w1] eqn:H1.
    + destruct (negb (truthy_list fetched)); discriminate.
    + intros [= _ <-] _. apply get_reservations_raises in H1 as [Hmiss ->]. auto.
Qed.

(** X12: with a positive TTL, a call that raises leaves the [SlurmAPI]
    object unchanged: nothing is stored, and the next call runs the command
    again. *)
Theorem exception_is_not_cached env v w e w' :
  call env v w = (Raise e, w') ->
  0 < ttl_of v w ->
  self w' = self w /\
  live_entry v w' = false /\
  calls (snd (call env v w')) = calls w ++ [command_of v; command_of v].
Proof.
  intros Hrun Httl. destruct (call_raises env v w e w' Hrun Httl) as [Hmiss ->].
  assert (live_entry v (logged (command_of v) w) = false) as Hmiss'
    by (destruct v; exact Hmiss).
  assert (0 < ttl_of v (logged (command_of v) w)) as Httl' by (destruct v; exact Httl).
  split; [reflexivity|]. split; [exact Hmiss'|].
  destruct (call env v (logged (command_of v) w)) as [r2 w2] eqn:Hrun2. simpl.
  destruct (call_effect env v _ r2 w2 Hrun2) as (n & _ & [_ _ _ Hc] & Hn).
  rewrite Hc, (Hn Httl'), Hmiss'. simpl. rewrite <- app_assoc. reflexivity.
Qed.

Lemma get_node_info_keeps_ttl env w :
  ttl (info_cache (self (snd (get_node_info env w)))) = ttl (info_cache (self w)).
Proof.
  unfold get_node_info, cachedmethod.
  destruct (cache_get (monotonic w) tt (info_cache (self w))); [reflexivity|].
  pose proof (get_node_info_body_logged env w) as Hlog.
  destruct (get_node_info_body env w) as [[v0|e] w1]; simpl in Hlog; subst w1; reflexivity.
Qed.

Lemma get_accounts_keeps_ttl env username w :
  ttl (acct_cache (self (snd (get_accounts env username w)))) = ttl (acct_cache (self w)).
Proof.
  unfold get_accounts, cachedmethod.
  destruct (cache_get (monotonic w) username (acct_cache (self w))); [reflexivity|].
  pose proof (get_accounts_body_logged env username w) as Hlog.
  destruct (get_accounts_body env username w) as [[v0|e] w1]; simpl in Hlog; subst w1;
    reflexivity.
Qed.

Lemma get_reservations_keeps_ttl env w :
  ttl (res_cache (self (snd (get_reservations env w)))) = ttl (res_cache (self w)).
Proof.
  unfold get_reservations, cachedmethod.
  destruct (cache_get (monotonic w) tt (res_cache (self w))); [reflexivity|].
  pose proof (get_reservations_body_logged env w) as Hlog.
  destruct (get_reservations_body env w) as [[v0|e] w1]; simpl in Hlog; subst w1;
    reflexivity.
Qed.

(** Without room for an entry, a fetch leaves the accounts cache as it
    was. *)
Lemma get_accounts_refused env username w names w' :
  cache_get (monotonic w) username (acct_cache (self w)) = None ->
  get_accounts env username w = (Ok names, w') ->
  maxsize (acct_cache (self w)) < 1 ->
  acct_cache (self w') = acct_cache (self w).
Proof.
  intros Hmiss Hrun Hsize. unfold get_accounts, cachedmethod in Hrun. rewrite Hmiss in Hrun.
  pose proof (get_accounts_body_logged env username w) as Hlog.
  destruct (get_accounts_body env username w) as [[v0|e] w1]; simpl in Hlog; subst w1;
    [|discriminate].
  injection Hrun as _ <-. simpl.
  rewrite (cache_put_refused _ _ _ (acct_cache (self w)) Hsize). reflexivity.
Qed.

Lemma call_keeps_ttl env v w : ttl_of v (snd (call env v w)) = ttl_of v w.
Proof.
  destruct v as [| | | | | |username|username accts]; simpl; unfold returning, bind.
  - unfold is_online, bind.
    pose proof (get_node_info_keeps_ttl env w) as T1.
    destruct (get_node_info env w) as [[info|e] w1]; simpl in T1; [|exact T1].
    destruct (truthy_list (cpu info)); [|exact T1].
    pose proof (get_node_info_keeps_ttl env w1) as T2.
    destruct (get_node_info env w1) as [[info2|e2] w2]; simpl in T2 |- *; congruence.
  - unfold get_cpus, bind. pose proof (get_node_info_keeps_ttl env w) as T1.
    destruct (get_node_info env w) as [[info|e] w1]; exact T1.
  - unfold get_mems, bind. pose proof (get_node_info_keeps_ttl env w) as T1.
    destruct (get_node_info env w) as [[info|e] w1]; exact T1.
  - unfold get_gres, bind. pose proof (get_node_info_keeps_ttl env w) as T1.
    destruct (get_node_info env w) as [[info|e] w1]; exact T1.
  - unfold get_partitions, bind. pose proof (get_node_info_keeps_ttl env w) as T1.
    destruct (get_node_info env w) as [[info|e] w1]; exact T1.
  - unfold get_features, bind. pose proof (get_node_info_keeps_ttl env w) as T1.
    destruct (get_node_info env w) as [[info|e] w1]; exact T1.
  - pose proof (get_accounts_keeps_ttl env username w) as T1.
    destruct (get_accounts env username w) as [[names|e] w1]; exact T1.
  - unfold get_active_reservations, bind.
    pose proof (get_reservations_keeps_ttl env w) as T1.
    destruct (get_reservations env w) as [[fetched|e] w1]; simpl in T1; [|exact T1].
    destruct (negb (truthy_list fetched)); exact T1.
Qed.

(** X13: the empty result of a failed node query is stored like any other:
    within the TTL of the failure, [get_node_info] and [is_online] keep
    returning the empty result without running the command, whatever the
    command would print by then. *)
Theorem degraded_result_is_cached env env' w rc t wall :
  cache_get (monotonic w) tt (info_cache (self w)) = None ->
  scontrol_show_node env (List.length (calls w)) = NonZeroExit rc ->
  t - monotonic w < ttl (info_cache (self w)) ->
  let w1 := snd (get_node_info env w) in
  let later := at_time t wall w1 in
  fst (get_node_info env' later) = Ok empty_output /\
  calls (snd (get_node_info env' later)) = calls w ++ [ScontrolShowNode] /\
  fst (call env' IsOnline later) = Ok (PyInts []) /\
  calls (snd (call env' IsOnline later)) = calls w ++ [ScontrolShowNode].
Proof.
  intros Hmiss Hout Ht.
  pose proof (get_node_info_fetch env w Hmiss) as Hfst. rewrite Hout in Hfst.
  apply get_node_info_pair in Hfst as [w1 Hrun]. rewrite Hrun. simpl.
  apply get_node_info_returns in Hrun as [_ _ _ [(_ & Hhit & _)|(Hc & _ & Hlater)]];
    [congruence|].
  assert (cache_get (monotonic (at_time t wall w1)) tt
            (info_cache (self (at_time t wall w1))) = Some empty_output) as Hget.
  { simpl. rewrite Hlater.
    destruct (Z.ltb_spec (t - monotonic w) (ttl (info_cache (self w)))); [reflexivity|lia]. }
  destruct (get_node_info_hit env' _ _ Hget) as (w2 & Hrun2 & _ & Hc2).
  unfold call, returning, is_online, bind. rewrite Hrun2. simpl.
  rewrite Hc2. simpl. auto.
Qed.

(** X14: with a positive TTL, once the TTL of a fetch has elapsed, the entry
    is no longer live and the next call of the same method runs the command
    again, exactly once. *)
Theorem expired_entry_is_fetched_again env v w0 r1 w1 t wall :
  call env v w0 = (Ok r1, w1) ->
  live_entry v w0 = false ->
  0 < ttl_of v w0 <= t - monotonic w0 ->
  live_entry v (at_time t wall w1) = false /\
  calls (snd (call env v (at_time t wall w1))) = calls w0 ++ [command_of v; command_of v].
Proof.
  intros Hrun Hmiss [Httl Ht].
  assert (live_entry v (at_time t wall w1) = false) as Hexpired.
  { destruct (Z_le_gt_dec 1 (maxsize_of v w0)) as [Hsize|Hsize].
    - destruct (live_entry v (at_time t wall w1)) eqn:Hlive; [|reflexivity].
      apply (live_entry_window env v w0 r1 w1 t wall Hsize Hrun Hmiss) in Hlive. lia.
    - destruct v as [| | | | | |username|username accts]; simpl in Hsize; try lia.
      simpl in Hrun, Hmiss |- *. unfold returning in Hrun.
      apply bind_returns in Hrun as (a & wa & Hrun & Hret).
      unfold ret in Hret. injection Hret as _ ->.
      apply not_live_none in Hmiss.
      rewrite (get_accounts_refused env username w0 _ _ Hmiss Hrun) by (simpl; lia).
      rewrite (cache_get_expired _ t _ _ Hmiss) by lia.
      apply bool_decide_eq_false_2. intros [x Hx]. discriminate. }
  split; [exact Hexpired|].
  destruct (call_effect env v w0 _ _ Hrun) as (n1 & _ & [_ _ _ Hc1] & Hn1).
  rewrite (Hn1 Httl), Hmiss in Hc1. simpl in Hc1.
  assert (0 < ttl_of v (at_time t wall w1)) as Httl'.
  { pose proof (call_keeps_ttl env v w0) as Hk. rewrite Hrun in Hk. simpl in Hk.
    destruct v; simpl in *; lia. }
  destruct (call env v (at_time t wall w1)) as [r2 w2] eqn:Hrun2. simpl.
  destruct (call_effect env v _ r2 w2 Hrun2) as (n2 & _ & [_ _ _ Hc2] & Hn2).
  rewrite Hc2, (Hn2 Httl'), Hexpired. simpl. rewrite Hc1, <- app_assoc. reflexivity.
Qed.

(** X15: when the node-inventory command exits with a non-zero status,
    [get_mems], [get_partitions] and [get_features] return the empty list and
    [get_gres] returns the sentinel alone. *)
Theorem degraded_views env w rc :
  cache_get (monotonic w) tt (info_cache (self w)) = None ->
  scontrol_show_node env (List.length (calls w)) = NonZeroExit rc ->
  fst (call env GetMems w) = Ok (PyInts []) /\
  fst (call env GetGres w) = Ok (PyStrs ["gpu:0"]) /\
  fst (call env GetPartitions w) = Ok (PyStrs []) /\
  fst (call env GetFeatures w) = Ok (PyStrs []).
Proof.
  intros Hmiss Hout.
  pose proof (get_node_info_fetch env w Hmiss) as Hfst. rewrite Hout in Hfst.
  apply get_node_info_pair in Hfst as [w' Hrun].
  destruct (call_projection _ _ _ _ Hrun) as (_ & -> & -> & -> & ->).
  repeat split.
Qed.

(** ** Instances of the further theorems *)

Lemma node_listing_keys_witness :
  ((exists info, fst (get_node_info env_without_memory world0) = Ok info)
   <-> Forall has_required_keys [node_a; node_without_memory; node_without_gres]) /\
  (forall good bad rest key,
     [node_a; node_without_memory; node_without_gres] = good ++ bad :: rest ->
     Forall has_required_keys good ->
     first_missing_key bad = Some key ->
     fst (get_node_info env_without_memory world0) = Raise (KeyError key)).
Proof.
  apply (node_listing_keys env_without_memory world0
           {| nodes := Some [node_a; node_without_memory; node_without_gres] |});
    reflexivity.
Defined.

Lemma views_from_listing_witness :
  exists cs ms gs ps fs,
    fst (call env_gpu GetCpus world0) = Ok (PyInts cs) /\
    fst (call env_gpu GetMems world0) = Ok (PyInts ms) /\
    fst (call env_gpu GetGres world0) = Ok (PyStrs gs) /\
    fst (call env_gpu GetPartitions world0) = Ok (PyStrs ps) /\
    fst (call env_gpu GetFeatures world0) = Ok (PyStrs fs) /\
    (forall x, x ∈ cs <-> exists n, n ∈ [node_a; node_c; node_b] /\ cpus n = Some x) /\
    (forall x, x ∈ ms <-> exists n, n ∈ [node_a; node_c; node_b] /\ mem_entry n x) /\
    (forall x, x ∈ gs <->
       x = "gpu:0" \/
       exists n, n ∈ [node_a; node_c; node_b] /\ gres n = Some (Some x) /\ x <> EmptyString) /\
    (forall x, x ∈ ps <->
       exists n l, n ∈ [node_a; node_c; node_b] /\ partitions n = Some l /\ x ∈ l) /\
    (forall x, x ∈ fs <->
       exists n l, n ∈ [node_a; node_c; node_b] /\ active_features n = Some l /\ x ∈ l).
Proof.
  apply (views_from_listing env_gpu world0 {| nodes := Some [node_a; node_c; node_b] |});
    [reflexivity|reflexivity|].
  repeat constructor; simpl; eauto.
Defined.

Lemma online_iff_listing_nonempty_witness :
  exists l,
    fst (call env_example IsOnline world0) = Ok (PyInts l) /\
    (truthy (PyInts l) = true <-> [node_a; node_b] <> []) /\
    (truthy (PyInts l) = true -> Forall2 mem_entry [node_a; node_b] l).
Proof.
  apply (online_iff_listing_nonempty env_example world0 {| nodes := Some [node_a; node_b] |});
    [reflexivity|reflexivity| |reflexivity].
  repeat constructor; simpl; eauto.
Defined.


Lemma reservation_listing_keys_witness :
  ((exists fetched, fst (get_reservations env_maint_bare world0) = Ok fetched)
   <-> Forall (convertible (fromtimestamp env_maint_bare)) [res_maint_bare; res_team]) /\
  (forall fetched, fst (get_reservations env_maint_bare world0) = Ok fetched ->
     List.length fetched = List.length (List.filter not_maint [res_maint_bare; res_team])).
Proof.
  apply (reservation_listing_keys env_maint_bare world0
           {| reservations := Some [res_maint_bare; res_team] |}); reflexivity.
Defined.

(** A time number that [fromtimestamp] refuses makes [get_reservations]
    raise, although every key is there. *)
Example far_reservation_raises :
  fst (get_reservations env_far world0) = Raise ValueError /\
  ~ Forall (convertible (fromtimestamp env_far)) [res_maint_bare; res_team; res_far].
Proof.
  split; [vm_compute; reflexivity|].
  intros Hall. apply Forall_cons in Hall as [_ Hall]. apply Forall_cons in Hall as [_ Hall].
  apply Forall_cons in Hall as [(fl & Hfl & [Hm|(_ & _ & _ & _ & Hend)]) _].
  - injection Hfl as <-. vm_compute in Hm. discriminate.
  - destruct Hend as (et & en & finish & Het & Hen & Hfin).
    injection Het as <-. injection Hen as <-. vm_compute in Hfin. discriminate.
Qed.

Lemma reservation_query_failure_witness :
  (forall rc, scontrol_show_res env_failing (List.length (calls world0)) = NonZeroExit rc ->
     fst (get_reservations env_failing world0) = Ok [] /\
     fst (get_active_reservations env_failing "alice" ["teamA"] world0) = Ok []) /\
  (scontrol_show_res env_failing (List.length (calls world0)) = NotLaunched ->
     fst (get_reservations env_failing world0) = Raise FileNotFoundError /\
     fst (get_active_reservations env_failing "alice" ["teamA"] world0)
     = Raise FileNotFoundError).
Proof.
  apply (reservation_query_failure env_failing world0 "alice" ["teamA"]). reflexivity.
Defined.

Lemma more_accounts_more_reservations_witness :
  exists out',
    fst (get_active_reservations env_example "bob" ["teamB"; "teamA"] world0) = Ok out' /\
    sublist [workshop] out'.
Proof.
  apply (more_accounts_more_reservations env_example world0 "bob" ["teamA"]
           ["teamB"; "teamA"] [workshop]).
  - intros a. rewrite !elem_of_cons. tauto.
  - vm_compute. reflexivity.
Defined.

Lemma reservation_users_and_accounts_witness :
  (forall us accs, users res_team = Some us -> accounts res_team = Some accs ->
     join comma (split comma us) = us /\ join comma (split comma accs) = accs /\
     Forall (free_of comma) (split comma us) /\
     Forall (free_of comma) (split comma accs)) /\
  (forall names, names <> [] -> Forall (free_of comma) names ->
     users res_team = Some (join comma names) -> forall u, u ∈ Users workshop <-> u ∈ names) /\
  (forall names, names <> [] -> Forall (free_of comma) names ->
     accounts res_team = Some (join comma names) ->
     forall a, a ∈ Accounts workshop <-> a ∈ names).
Proof.
  apply (reservation_users_and_accounts (fun n => Ok n) res_team workshop).
  vm_compute. reflexivity.
Defined.

Lemma account_names_are_lines_witness :
  exists names,
    fst (get_accounts env_example "alice" world0) = Ok names /\
    Forall no_linebreak names /\
    (names = [] <-> accounts_output = EmptyString).
Proof.
  apply (account_names_are_lines env_example "alice" world0 accounts_output); reflexivity.
Defined.

Lemma call_runs_command_on_miss_witness :
  calls (snd (call env_example (GetAccounts "alice") world0))
  = calls world0
    ++ (if live_entry (GetAccounts "alice") world0 then []
        else [command_of (GetAccounts "alice")]).
Proof.
  apply (call_runs_command_on_miss env_example (GetAccounts "alice") world0). reflexivity.
Defined.

Lemma exception_is_not_cached_witness :
  self (snd (call env_unavailable GetCpus world0)) = self world0 /\
  live_entry GetCpus (snd (call env_unavailable GetCpus world0)) = false /\
  calls (snd (call env_unavailable GetCpus (snd (call env_unavailable GetCpus world0))))
  = calls world0 ++ [command_of GetCpus; command_of GetCpus].
Proof.
  apply (exception_is_not_cached env_unavailable GetCpus world0 FileNotFoundError);
    reflexivity.
Defined.

Lemma degraded_result_is_cached_witness :
  let w1 := snd (get_node_info env_recovering world0) in
  let later := at_time 299 150 w1 in
  fst (get_node_info env_recovering later) = Ok empty_output /\
  calls (snd (get_node_info env_recovering later)) = calls world0 ++ [ScontrolShowNode] /\
  fst (call env_recovering IsOnline later) = Ok (PyInts []) /\
  calls (snd (call env_recovering IsOnline later)) = calls world0 ++ [ScontrolShowNode].
Proof.
  apply (degraded_result_is_cached env_recovering env_recovering world0 1 299 150);
    reflexivity.
Defined.

Lemma expired_entry_is_fetched_again_witness :
  live_entry GetCpus (at_time 300 150 (snd (call env_recovering GetCpus world0))) = false /\
  calls (snd (call env_recovering GetCpus
                (at_time 300 150 (snd (call env_recovering GetCpus world0)))))
  = calls world0 ++ [command_of GetCpus; command_of GetCpus].
Proof.
  apply (expired_entry_is_fetched_again env_recovering GetCpus world0 (PyInts []));
    [vm_compute; reflexivity|reflexivity|].
  split; [reflexivity|vm_compute; discriminate].
Defined.

Lemma degraded_views_witness :
  fst (call env_failing GetMems world0) = Ok (PyInts []) /\
  fst (call env_failing GetGres world0) = Ok (PyStrs ["gpu:0"]) /\
  fst (call env_failing GetPartitions world0) = Ok (PyStrs []) /\
  fst (call env_failing GetFeatures world0) = Ok (PyStrs []).
Proof. apply (degraded_views env_failing world0 1); reflexivity. Defined.
